(** * A shallow embedding of the Naive Bayes sentiment classifier (main.py)

    Python floats are read as the real numbers they stand for ([R], with
    [ln] for [math.log]); the float addition of [classify], whose sums are
    compared with each other and with zero, is an operation of an interface
    ([FloatArith]) about which nothing is assumed.  Python ints are [Z],
    dicts, Counters and sets stdpp's [gmap] and [gset], exceptions an error
    result.  The NLTK services, the two [str] methods used by [tokenize] and
    the decimal digits of Unicode are an interface ([TextServices]); the
    corpus directories, whose files are taken to decode as UTF-8, and the
    pickle file are a small [FileSystem] record. *)

From Stdlib Require Import Reals Lra Lia ZArith Ascii String.
From stdpp Require Import gmap strings list fin_maps fin_sets.

Local Open Scope Z_scope.

(** ** Exceptions and the result of a call that may raise *)

Inductive exception : Set :=
| ZeroDivisionError
| ValueError
| AssertionError.

Inductive result (A : Type) : Type :=
| Ok (a : A)
| Raise (e : exception).
Arguments Ok {A} a.
Arguments Raise {A} e.

#[global] Instance result_ret : MRet result := fun _ a => Ok a.
#[global] Instance result_bind : MBind result := fun _ _ f r =>
  match r with Ok a => f a | Raise e => Raise e end.

(** ** Python arithmetic *)

Module Py.

(** [a / b] on two ints (true division). *)
Definition truediv (a b : Z) : result R :=
  if decide (b = 0) then Raise ZeroDivisionError else Ok (IZR a / IZR b)%R.

(** [x / y] on two floats. *)
Definition float_truediv (x y : R) : result R :=
  if Req_dec_T y 0 then Raise ZeroDivisionError else Ok (x / y)%R.

(** [math.log(x)]: a math domain error outside the positive reals. *)
Definition math_log (x : R) : result R :=
  if Rle_dec x 0 then Raise ValueError else Ok (ln x).

(** [x == y] and [x > y] on floats. *)
Definition float_eq (x y : R) : bool := if Req_dec_T x y then true else false.
Definition float_gt (x y : R) : bool := if Rgt_dec x y then true else false.

(** [Counter(tokens)]. *)
Definition Counter (tokens : list string) : gmap string Z :=
  foldl (fun c t => <[t := default 0 (c !! t) + 1]> c) ∅ tokens.

(** [c[word]] on a Counter: a missing key reads as 0 and is not inserted. *)
Definition counter_getitem (c : gmap string Z) (word : string) : Z :=
  default 0 (c !! word).

(** [a += b] on Counters: counts are added and only the positive ones kept. *)
Definition counter_iadd (a b : gmap string Z) : gmap string Z :=
  merge (fun x y =>
           match x, y with
           | None, None => None
           | _, _ =>
               let newcount := default 0 x + default 0 y in
               if decide (0 < newcount) then Some newcount else None
           end) a b.

(** [sum(c.values())]. *)
Definition sum_values (c : gmap string Z) : Z :=
  map_fold (fun _ v acc => v + acc) 0 c.

(** [d.get(key, dflt)]: the value read and the dict after the call. *)
Definition dict_get {V} (d : gmap string V) (key : string) (dflt : V)
  : V * gmap string V :=
  (default dflt (d !! key), d).

(** [d[key]] on a [defaultdict(float)]: a missing key is inserted with 0.0. *)
Definition defaultdict_getitem (d : gmap string R) (key : string)
  : R * gmap string R :=
  match d !! key with
  | Some v => (v, d)
  | None => (0%R, <[key := 0%R]> d)
  end.

End Py.

(** ** Float addition

    [x + y] on two floats is the float nearest to the sum, which need not
    be the sum: two sums that are equal as real numbers can differ as
    floats, and two that differ can be equal.  The operation is left open. *)

Class FloatArith := {
  float_add : R -> R -> R;
}.

(** The addition that never rounds, with which the examples are computed. *)
Definition exact_arith : FloatArith := {| float_add := Rplus |}.

(** ** The external text services *)

Class TextServices := {
  str_strip : string -> string;
  str_lower : string -> string;
  word_tokenize : string -> list string;
  wordnet_lemmatize : string -> string;
  english_stopwords : list string;
  (** What [\d*] matches at the start of a string: its leading decimal
      digits, of any script of Unicode, as the values that [int] gives
      them, and the rest of the string. *)
  leading_digits : string -> list Z * string;
}.

(** ** Corpus directories and the saved parameters *)

Record Params := {
  pos_prior : R;
  neg_prior : R;
  n_pos_words : Z;
  n_neg_words : Z;
  n_vocab : Z;
  pos_likelihood : gmap string R;
  neg_likelihood : gmap string R;
}.

(** A directory is its listing, file name and contents, the contents being
    the text that the file decodes to (every file is taken to decode as
    UTF-8); [None] when the path is not a directory. *)
Definition directory := option (list (string * string)).

Record FileSystem := {
  train_pos : directory;
  train_neg : directory;
  test_pos : directory;
  test_neg : directory;
  saved_params : option Params;
}.

Definition write_saved_params (fs : FileSystem) (p : Params) : FileSystem :=
  {| train_pos := train_pos fs; train_neg := train_neg fs;
     test_pos := test_pos fs; test_neg := test_neg fs;
     saved_params := Some p |}.

(** ** get_samples *)

Definition sample : Type := Z * string * Z.

(** [int(group)] on a group of decimal digits, given by their values. *)
Definition int_of_digits (ds : list Z) : Z :=
  foldl (fun n d => 10 * n + d) 0 ds.

Section GetSamples.
Context `{TextServices}.

(** [pattern.match(name)] for [(\d+)_(\d+)\.txt]: the two groups as ints. *)
Definition pattern_match (name : string) : option (Z * Z) :=
  match leading_digits name with
  | ([], _) => None
  | (g1, String "_" rest) =>
      match leading_digits rest with
      | ([], _) => None
      | (g2, tl) =>
          if String.prefix ".txt" tl
          then Some (int_of_digits g1, int_of_digits g2)
          else None
      end
  | _ => None
  end.

Fixpoint samples_of_listing (files : list (string * string)) : list sample :=
  match files with
  | [] => []
  | (name, contents) :: rest =>
      match pattern_match name with
      | Some (review_id, rating) =>
          let review_classification := if 7 <=? rating then 1 else -1 in
          (review_id, contents, review_classification)
            :: samples_of_listing rest
      | None => samples_of_listing rest
      end
  end.

Definition get_samples (d : directory) : result (list sample) :=
  match d with
  | None => Raise AssertionError
  | Some files => Ok (samples_of_listing files)
  end.

End GetSamples.

(** ** class NaiveBayesClassifier *)

Module NaiveBayesClassifier.

Record self := {
  should_retrain : bool;
  should_use_stopwords : bool;
  should_lemmatize : bool;
  params : Params;
  def_pos_ll : R;
  def_neg_ll : R;
}.

(** The value of [self.params] set by [__init__] before [_init_params]. *)
Definition initial_params : Params :=
  {| pos_prior := 0; neg_prior := 0;
     n_pos_words := 0; n_neg_words := 0; n_vocab := 0;
     pos_likelihood := ∅; neg_likelihood := ∅ |}.

Section WithTextServices.
Context `{TextServices} `{FloatArith}.

Definition stopwords : gset string :=
  list_to_set (english_stopwords ++ ["'s"; "'ve"; "br"]).

(** [re.search(r'[a-z]', token)]. *)
Definition has_a_to_z (token : string) : bool :=
  existsb (fun c => (97 <=? nat_of_ascii c)%nat && (nat_of_ascii c <=? 122)%nat)
          (list_ascii_of_string token).

Definition tokenize (use_stopwords lemmatize : bool) (text : string)
  : list string :=
  let text := str_lower (str_strip text) in
  let tokens := List.filter has_a_to_z (word_tokenize text) in
  let tokens :=
    if lemmatize then List.map wordnet_lemmatize tokens else tokens in
  let tokens :=
    if use_stopwords
    then List.filter (fun token => bool_decide (token ∉ stopwords)) tokens
    else tokens in
  tokens.

(** The loop that counts the samples of one class and fills its bag of
    words. *)
Fixpoint bow_loop (use_stopwords lemmatize : bool) (samples : list sample)
    (n_train : Z) (bow : gmap string Z) : Z * gmap string Z :=
  match samples with
  | [] => (n_train, bow)
  | sample :: rest =>
      let n_train := n_train + 1 in
      let sample_contents := sample.1.2 in
      let sample_tokens := tokenize use_stopwords lemmatize sample_contents in
      bow_loop use_stopwords lemmatize rest n_train
               (Py.counter_iadd bow (Py.Counter sample_tokens))
  end.

(** The loop that fills one likelihood dict, word by word. *)
Fixpoint likelihood_loop (bow : gmap string Z) (denominator : Z)
    (words : list string) (likelihood : gmap string R)
  : result (gmap string R) :=
  match words with
  | [] => Ok likelihood
  | word :: rest =>
      let frequency := Py.counter_getitem bow word + 1 in
      q ← Py.truediv frequency denominator;
      l ← Py.math_log q;
      likelihood_loop bow denominator rest (<[word := l]> likelihood)
  end.

Definition _train_model (use_stopwords lemmatize : bool) (fs : FileSystem)
  : result (Params * FileSystem) :=
  pos_train ← get_samples (train_pos fs);
  let '(n_pos_train, pos_bow) :=
    bow_loop use_stopwords lemmatize pos_train 0 ∅ in
  neg_train ← get_samples (train_neg fs);
  let '(n_neg_train, neg_bow) :=
    bow_loop use_stopwords lemmatize neg_train 0 ∅ in
  let n_samples := n_pos_train + n_neg_train in
  pos_ratio ← Py.truediv n_pos_train n_samples;
  pos_prior ← Py.math_log pos_ratio;
  neg_ratio ← Py.truediv n_neg_train n_samples;
  neg_prior ← Py.math_log neg_ratio;
  let n_pos_words := Py.sum_values pos_bow in
  let n_neg_words := Py.sum_values neg_bow in
  let vocabulary : gset string := dom pos_bow ∪ dom neg_bow in
  let n_vocab := Z.of_nat (size vocabulary) in
  let pos_denominator := n_pos_words + n_vocab in
  let neg_denominator := n_neg_words + n_vocab in
  pos_likelihood ←
    likelihood_loop pos_bow pos_denominator (elements vocabulary) ∅;
  neg_likelihood ←
    likelihood_loop neg_bow neg_denominator (elements vocabulary) ∅;
  let params :=
    {| pos_prior := pos_prior; neg_prior := neg_prior;
       n_pos_words := n_pos_words; n_neg_words := n_neg_words;
       n_vocab := n_vocab;
       pos_likelihood := pos_likelihood;
       neg_likelihood := neg_likelihood |} in
  Ok (params, write_saved_params fs params).

Definition _init_params (retrain use_stopwords lemmatize : bool)
    (fs : FileSystem) : result (Params * FileSystem) :=
  match saved_params fs with
  | Some loaded =>
      if negb retrain then Ok (loaded, fs)
      else _train_model use_stopwords lemmatize fs
  | None => _train_model use_stopwords lemmatize fs
  end.

Definition __init__ (retrain use_stopwords lemmatize : bool)
    (fs : FileSystem) : result (self * FileSystem) :=
  '(params, fs) ← _init_params retrain use_stopwords lemmatize fs;
  let pos_d := n_pos_words params + n_vocab params in
  let neg_d := n_neg_words params + n_vocab params in
  pos_q ← Py.truediv 1 pos_d;
  def_pos_ll ← Py.math_log pos_q;
  neg_q ← Py.truediv 1 neg_d;
  def_neg_ll ← Py.math_log neg_q;
  Ok ({| should_retrain := retrain;
         should_use_stopwords := use_stopwords;
         should_lemmatize := lemmatize;
         params := params;
         def_pos_ll := def_pos_ll;
         def_neg_ll := def_neg_ll |}, fs).

(** The two likelihood dicts are objects reached through [self]: a call of
    one of their methods gives the value and [self] after the call. *)
Definition with_likelihoods (s : self) (pos neg : gmap string R) : self :=
  {| should_retrain := should_retrain s;
     should_use_stopwords := should_use_stopwords s;
     should_lemmatize := should_lemmatize s;
     params :=
       {| pos_prior := pos_prior (params s); neg_prior := neg_prior (params s);
          n_pos_words := n_pos_words (params s);
          n_neg_words := n_neg_words (params s);
          n_vocab := n_vocab (params s);
          pos_likelihood := pos; neg_likelihood := neg |};
     def_pos_ll := def_pos_ll s;
     def_neg_ll := def_neg_ll s |}.

Definition pos_likelihood_get (s : self) (word : string) (dflt : R)
  : R * self :=
  let '(v, d) := Py.dict_get (pos_likelihood (params s)) word dflt in
  (v, with_likelihoods s d (neg_likelihood (params s))).

Definition neg_likelihood_get (s : self) (word : string) (dflt : R)
  : R * self :=
  let '(v, d) := Py.dict_get (neg_likelihood (params s)) word dflt in
  (v, with_likelihoods s (pos_likelihood (params s)) d).

(** The sanity check inside the loop of [classify]. *)
Definition sanity_check_fails (positive negative : R) : bool :=
  Py.float_eq positive 0 || Py.float_eq negative 0
  || Py.float_eq positive negative.

Fixpoint classify_loop (s : self) (words : list string)
    (positive negative : R) : result (R * R) * self :=
  match words with
  | [] => (Ok (positive, negative), s)
  | word :: rest =>
      let '(lp, s) := pos_likelihood_get s word (def_pos_ll s) in
      let positive := float_add positive lp in
      let '(ln, s) := neg_likelihood_get s word (def_neg_ll s) in
      let negative := float_add negative ln in
      if sanity_check_fails positive negative
      then (Raise AssertionError, s)
      else classify_loop s rest positive negative
  end.

Definition classify (s : self) (text : string) : result Z * self :=
  let words :=
    tokenize (should_use_stopwords s) (should_lemmatize s) text in
  let positive := pos_prior (params s) in
  let negative := neg_prior (params s) in
  match classify_loop s words positive negative with
  | (Ok (positive, negative), s) =>
      (Ok (if Py.float_gt positive negative then 1 else -1), s)
  | (Raise e, s) => (Raise e, s)
  end.

End WithTextServices.
End NaiveBayesClassifier.

(** ** evaluate and classify, the two commands *)

Record Metrics := {
  precision : R;
  recall : R;
  f_measure : R;
  accuracy : R;
}.

Section Commands.
Context `{TextServices} `{FloatArith}.

(** The loop of [evaluate] over the test samples, with its four counters. *)
Fixpoint evaluate_loop (model : NaiveBayesClassifier.self)
    (samples : list sample) (tp tn fp fn : Z)
  : result (Z * Z * Z * Z) * NaiveBayesClassifier.self :=
  match samples with
  | [] => (Ok (tp, tn, fp, fn), model)
  | sample :: rest =>
      let text := sample.1.2 in
      let actual := sample.2 in
      match NaiveBayesClassifier.classify model text with
      | (Raise e, model) => (Raise e, model)
      | (Ok prediction, model) =>
          if decide (actual = 1) then
            if decide (prediction = 1)
            then evaluate_loop model rest (tp + 1) tn fp fn
            else evaluate_loop model rest tp tn fp (fn + 1)
          else
            if decide (prediction = 1)
            then evaluate_loop model rest tp tn (fp + 1) fn
            else evaluate_loop model rest tp (tn + 1) fp fn
      end
  end.

(** The four metrics that [evaluate] computes from its counters and
    prints. *)
Definition compute_metrics (tp tn fp fn : Z) : result Metrics :=
  precision ← Py.truediv tp (tp + fp);
  recall ← Py.truediv tp (tp + fn);
  f_measure ←
    Py.float_truediv (2 * precision * recall)%R (precision + recall)%R;
  accuracy ← Py.truediv (tp + tn) (tp + fp + tn + fn);
  Ok {| precision := precision; recall := recall;
        f_measure := f_measure; accuracy := accuracy |}.

Definition evaluate (retrain stopwords lemmatize : bool) (fs : FileSystem)
  : result (Metrics * FileSystem) :=
  '(model, fs) ← NaiveBayesClassifier.__init__ retrain stopwords lemmatize fs;
  pos_samples ← get_samples (test_pos fs);
  match evaluate_loop model pos_samples 0 0 0 0 with
  | (Raise e, _) => Raise e
  | (Ok (tp, tn, fp, fn), model) =>
      neg_samples ← get_samples (test_neg fs);
      match evaluate_loop model neg_samples tp tn fp fn with
      | (Raise e, _) => Raise e
      | (Ok (tp, tn, fp, fn), _) =>
          metrics ← compute_metrics tp tn fp fn;
          Ok (metrics, fs)
      end
  end.

Definition classify (text : string) (retrain stopwords lemmatize : bool)
    (fs : FileSystem) : result (Z * FileSystem) :=
  '(model, fs) ← NaiveBayesClassifier.__init__ retrain stopwords lemmatize fs;
  match NaiveBayesClassifier.classify model text with
  | (Ok label, _) => Ok (label, fs)
  | (Raise e, _) => Raise e
  end.

End Commands.

(** ** Text services for plain lower-case text

    On words of ASCII letters separated by blanks the tokenizer splits at
    the blanks; these services do that, fold ASCII case, and leave every
    word as its own lemma.  The stop word list is the head of NLTK's.  The
    digits are those of ASCII, the only ones in the names of the example
    corpora. *)

Module PlainText.

Definition is_space (c : ascii) : bool :=
  (nat_of_ascii c =? 32)%nat
  || ((9 <=? nat_of_ascii c)%nat && (nat_of_ascii c <=? 13)%nat).

Fixpoint lstrip (s : string) : string :=
  match s with
  | String c rest => if is_space c then lstrip rest else s
  | EmptyString => s
  end.

Definition rev_string (s : string) : string :=
  string_of_list_ascii (rev (list_ascii_of_string s)).

Definition strip (s : string) : string :=
  rev_string (lstrip (rev_string (lstrip s))).

Definition lower_char (c : ascii) : ascii :=
  if (65 <=? nat_of_ascii c)%nat && (nat_of_ascii c <=? 90)%nat
  then ascii_of_nat (nat_of_ascii c + 32)
  else c.

Fixpoint lower (s : string) : string :=
  match s with
  | String c rest => String (lower_char c) (lower rest)
  | EmptyString => EmptyString
  end.

Fixpoint split_blanks (s : string) (word : string) : list string :=
  match s with
  | EmptyString => if decide (word = EmptyString) then [] else [word]
  | String c rest =>
      if is_space c
      then if decide (word = EmptyString)
           then split_blanks rest EmptyString
           else word :: split_blanks rest EmptyString
      else split_blanks rest (word +:+ String c EmptyString)
  end.

Definition is_digit (c : ascii) : bool :=
  (48 <=? nat_of_ascii c)%nat && (nat_of_ascii c <=? 57)%nat.

Fixpoint span_digits (s : string) : list Z * string :=
  match s with
  | String c rest =>
      if is_digit c
      then let '(ds, tl) := span_digits rest in
           (Z.of_nat (nat_of_ascii c) - 48 :: ds, tl)
      else ([], s)
  | EmptyString => ([], s)
  end.

#[export] Instance services : TextServices := {|
  str_strip := strip;
  str_lower := lower;
  word_tokenize := fun text => split_blanks text EmptyString;
  wordnet_lemmatize := fun token => token;
  english_stopwords := ["i"; "me"; "my"; "myself"; "we"; "our"; "ours"];
  leading_digits := span_digits;
|}.

End PlainText.

(** * Notions used to state the properties *)

(** The number of occurrences of a word in a token sequence. *)
Fixpoint count_word (w : string) (tokens : list string) : Z :=
  match tokens with
  | [] => 0
  | t :: rest => (if decide (t = w) then 1 else 0) + count_word w rest
  end.

Definition positive_counts (c : gmap string Z) : Prop :=
  forall k v, c !! k = Some v -> 0 < v.

Definition Zsum (f : string -> Z) (l : list string) : Z :=
  foldr (fun w acc => f w + acc) 0 l.

(** The probability mass that a likelihood dict gives to its words. *)
Definition mass (likelihood : gmap string R) : R :=
  map_fold (fun _ v acc => (exp v + acc)%R) 0%R likelihood.

Definition Rsum (f : string -> R) (l : list string) : R :=
  foldr (fun w acc => (f w + acc)%R) 0%R l.

Section Notions.
Context `{TextServices} `{FloatArith}.
Import NaiveBayesClassifier.

(** All token occurrences of the documents of one class, in order. *)
Definition class_tokens (use_stopwords lemmatize : bool)
    (samples : list sample) : list string :=
  concat (List.map (fun s : sample => tokenize use_stopwords lemmatize s.1.2)
                   samples).

(** The bag of words of one class after its loop. *)
Definition bag (sw lem : bool) (samples : list sample) : gmap string Z :=
  (bow_loop sw lem samples 0 ∅).2.

(** The vocabulary: the distinct words of the two classes. *)
Definition vocabulary (sw lem : bool) (pos neg : list sample) : gset string :=
  list_to_set (class_tokens sw lem pos ++ class_tokens sw lem neg).

(** The add-one smoothed log-likelihood of a word counted [count] times in
    a class of [n_words] tokens, over a vocabulary of [n_vocab] words. *)
Definition laplace (count n_words n_vocab : Z) : R :=
  ln (IZR (count + 1) / IZR (n_words + n_vocab)).

(** What training computes from the samples of the two classes. *)
Record trained (sw lem : bool) (pos neg : list sample) (p : Params)
  : Prop := {
  trained_pos_prior :
    pos_prior p
    = ln (IZR (Z.of_nat (length pos))
          / IZR (Z.of_nat (length pos) + Z.of_nat (length neg)));
  trained_neg_prior :
    neg_prior p
    = ln (IZR (Z.of_nat (length neg))
          / IZR (Z.of_nat (length pos) + Z.of_nat (length neg)));
  trained_n_pos_words :
    n_pos_words p = Z.of_nat (length (class_tokens sw lem pos));
  trained_n_neg_words :
    n_neg_words p = Z.of_nat (length (class_tokens sw lem neg));
  trained_n_vocab :
    n_vocab p = Z.of_nat (size (vocabulary sw lem pos neg));
  trained_pos_likelihood : forall w,
    pos_likelihood p !! w
    = if decide (w ∈ vocabulary sw lem pos neg)
      then Some (laplace (count_word w (class_tokens sw lem pos))
                         (n_pos_words p) (n_vocab p))
      else None;
  trained_neg_likelihood : forall w,
    neg_likelihood p !! w
    = if decide (w ∈ vocabulary sw lem pos neg)
      then Some (laplace (count_word w (class_tokens sw lem neg))
                         (n_neg_words p) (n_vocab p))
      else None;
}.

(** The score of one class after a token sequence: the prior, to which
    float addition adds, token after token, the likelihood stored for the
    token, or the default when the dict has no entry for it. *)
Definition accumulate (likelihood : gmap string R) (dflt : R) (prior : R)
    (words : list string) : R :=
  foldl (fun acc w => float_add acc (default dflt (likelihood !! w)))
        prior words.

Definition score_pos (s : self) (words : list string) : R :=
  accumulate (pos_likelihood (params s)) (def_pos_ll s)
             (pos_prior (params s)) words.

Definition score_neg (s : self) (words : list string) : R :=
  accumulate (neg_likelihood (params s)) (def_neg_ll s)
             (neg_prior (params s)) words.

Definition zero_or_tie (positive negative : R) : Prop :=
  positive = 0%R \/ negative = 0%R \/ positive = negative.

(** The tokens that [classify] scores for a text. *)
Definition tokens_of (s : self) (text : string) : list string :=
  tokenize (should_use_stopwords s) (should_lemmatize s) text.

End Notions.

(** ** The corpora of the examples *)

(** Two positive and two negative training documents. *)
Definition example_fs : FileSystem :=
  {| train_pos := Some [("1_10.txt", "good movie good");
                        ("2_8.txt", "great film")];
     train_neg := Some [("3_1.txt", "bad movie");
                        ("4_3.txt", "terrible film")];
     test_pos := Some [];
     test_neg := Some [];
     saved_params := None |}.

(** The same documents, listed in another order. *)
Definition example_fs_reordered : FileSystem :=
  {| train_pos := Some [("2_8.txt", "great film");
                        ("1_10.txt", "good movie good")];
     train_neg := Some [("4_3.txt", "terrible film");
                        ("3_1.txt", "bad movie")];
     test_pos := Some [];
     test_neg := Some [];
     saved_params := None |}.

(** One positive and one negative training document that share a word. *)
Definition balanced_fs : FileSystem :=
  {| train_pos := Some [("1_9.txt", "good film")];
     train_neg := Some [("2_2.txt", "bad film")];
     test_pos := Some [];
     test_neg := Some [];
     saved_params := None |}.

(** The classifier that [__init__] builds by training on [balanced_fs],
    without stop word filtering or lemmatization. *)
Definition balanced_model : NaiveBayesClassifier.self :=
  {| NaiveBayesClassifier.should_retrain := true;
     NaiveBayesClassifier.should_use_stopwords := false;
     NaiveBayesClassifier.should_lemmatize := false;
     NaiveBayesClassifier.params :=
       {| pos_prior := ln (1 / 2);
          neg_prior := ln (1 / 2);
          n_pos_words := 2;
          n_neg_words := 2;
          n_vocab := 3;
          pos_likelihood :=
            <["good" := ln (2 / 5)]>
              (<["film" := ln (2 / 5)]> {["bad" := ln (1 / 5)]});
          neg_likelihood :=
            <["good" := ln (1 / 5)]>
              (<["film" := ln (2 / 5)]> {["bad" := ln (2 / 5)]}) |};
     NaiveBayesClassifier.def_pos_ll := ln (1 / 5);
     NaiveBayesClassifier.def_neg_ll := ln (1 / 5) |}.

(** A corpus whose positive directory holds no review file. *)
Definition no_positive_fs : FileSystem :=
  {| train_pos := Some [("README", "not a review")];
     train_neg := Some [("3_1.txt", "bad movie")];
     test_pos := Some [];
     test_neg := Some [];
     saved_params := None |}.

(** Two directories with the same files, in any order. *)
Definition same_listing (d d' : directory) : Prop :=
  match d, d' with
  | Some files, Some files' => files ≡ₚ files'
  | None, None => True
  | _, _ => False
  end.

Section ClaimsAsStated.
Context `{TextServices} `{FloatArith}.
Import NaiveBayesClassifier.

(** The sanity check read as one check after the loop: [classify] raises
    exactly when the scores of the whole token sequence are zero or tied. *)
Definition raises_on_final_scores (s : self) (text : string) : Prop :=
  (exists e, (classify s text).1 = Raise e)
  <-> zero_or_tie (score_pos s (tokens_of s text))
                  (score_neg s (tokens_of s text)).

(** The smoothed distribution of a class read as summing to 1 once the
    mass of one unseen word is added to the masses of the vocabulary. *)
Definition mass_with_unseen_is_one (likelihood : gmap string R)
    (default_ll : R) : Prop :=
  (mass likelihood + exp default_ll)%R = 1%R.

End ClaimsAsStated.

(** ** Notions for the files of a corpus directory *)

Section FileNotions.
Context `{TextServices}.

(** The files of a listing whose names match the pattern, in the order of
    the listing. *)
Definition matching_files (files : list (string * string))
  : list (string * string) :=
  List.filter (fun file => bool_decide (is_Some (pattern_match file.1))) files.

(** [s] is the sample of the file [file]: its contents, the review id of
    its name, and the label of the rating of its name. *)
Definition sample_of_file (s : sample) (file : string * string) : Prop :=
  s.1.2 = file.2
  /\ exists rating,
      pattern_match file.1 = Some (s.1.1, rating)
      /\ s.2 = if 7 <=? rating then 1 else -1.

End FileNotions.

(** ** Further notions and example corpora *)

(** The command [classify], as opposed to the method of the class. *)
Abbreviation command_classify := classify (only parsing).

(** A corpus whose documents hold no word. *)
Definition numbers_only_fs : FileSystem :=
  {| train_pos := Some [("1_9.txt", "1984 !!")];
     train_neg := Some [("2_2.txt", "2 + 2")];
     test_pos := Some [];
     test_neg := Some [];
     saved_params := None |}.

(** The classifier [s] as [__init__] rebuilds it from saved parameters. *)
Definition reloaded (s : NaiveBayesClassifier.self)
    (use_stopwords lemmatize : bool) : NaiveBayesClassifier.self :=
  {| NaiveBayesClassifier.should_retrain := false;
     NaiveBayesClassifier.should_use_stopwords := use_stopwords;
     NaiveBayesClassifier.should_lemmatize := lemmatize;
     NaiveBayesClassifier.params := NaiveBayesClassifier.params s;
     NaiveBayesClassifier.def_pos_ll := NaiveBayesClassifier.def_pos_ll s;
     NaiveBayesClassifier.def_neg_ll := NaiveBayesClassifier.def_neg_ll s |}.

(** The number of samples of a list that are labelled positive. *)
Definition count_positive (samples : list sample) : Z :=
  Z.of_nat (length (List.filter (fun s : sample => bool_decide (s.2 = 1))
                                samples)).


(** Evaluation of the closed facts about the example corpora that involve
    no real number. *)
Ltac by_evaluation :=
  lazymatch goal with
  | |- _ ∈ _ => refine (bool_decide_unpack _ _); vm_compute; exact I
  | |- _ ∉ _ => refine (bool_decide_unpack _ _); vm_compute; exact I
  | |- _ <> _ => refine (bool_decide_unpack _ _); vm_compute; exact I
  | |- _ => vm_compute; reflexivity
  end.

(** * Properties *)

(** ** Counters *)


Lemma count_word_nonneg w tokens : 0 <= count_word w tokens.
Proof. induction tokens as [|t rest IH]; simpl; [lia | case_decide; lia]. Qed.

Lemma count_word_app w l1 l2 :
  count_word w (l1 ++ l2) = count_word w l1 + count_word w l2.
Proof. induction l1 as [|t rest IH]; simpl; [done | rewrite IH; lia]. Qed.

Lemma count_word_pos_elem_of w tokens : 0 < count_word w tokens <-> w ∈ tokens.
Proof.
  induction tokens as [|t rest IH]; simpl.
  - split; [lia | by intros ?%elem_of_nil].
  - rewrite elem_of_cons. pose proof (count_word_nonneg w rest).
    case_decide as Ht; subst.
    + split; [auto | lia].
    + split.
      * intros Hpos. right. apply IH. lia.
      * intros [Heq | Hin]; [congruence |]. apply IH in Hin. lia.
Qed.

Lemma count_word_Permutation w l1 l2 :
  l1 ≡ₚ l2 -> count_word w l1 = count_word w l2.
Proof. induction 1; simpl; lia. Qed.

Lemma positive_counts_empty : positive_counts ∅.
Proof. intros k v Hk. by rewrite lookup_empty in Hk. Qed.

Lemma counter_getitem_nonneg c w :
  positive_counts c -> 0 <= Py.counter_getitem c w.
Proof.
  intros Hc. unfold Py.counter_getitem.
  destruct (c !! w) as [v|] eqn:E; simpl; [apply Hc in E |]; lia.
Qed.

Lemma counter_getitem_0 c w :
  positive_counts c -> Py.counter_getitem c w = 0 <-> c !! w = None.
Proof.
  intros Hc. unfold Py.counter_getitem.
  destruct (c !! w) as [v|] eqn:E; simpl; [|done].
  apply Hc in E. split; [lia | done].
Qed.

(** Two Counters with the same counts are the same dict. *)
Lemma counter_ext a b :
  positive_counts a -> positive_counts b ->
  (forall w, Py.counter_getitem a w = Py.counter_getitem b w) -> a = b.
Proof.
  intros Ha Hb Hab. apply map_eq. intros w. specialize (Hab w).
  unfold Py.counter_getitem in Hab.
  destruct (a !! w) as [x|] eqn:Ea, (b !! w) as [y|] eqn:Eb;
    simpl in Hab; subst; try done.
  - apply Ha in Ea. lia.
  - apply Hb in Eb. lia.
Qed.

Lemma counter_step_getitem c t w :
  Py.counter_getitem (<[t := default 0 (c !! t) + 1]> c) w
  = Py.counter_getitem c w + (if decide (t = w) then 1 else 0).
Proof.
  unfold Py.counter_getitem. case_decide; subst.
  - by rewrite lookup_insert_eq.
  - rewrite lookup_insert_ne by done. lia.
Qed.

Lemma counter_step_positive c t :
  positive_counts c -> positive_counts (<[t := default 0 (c !! t) + 1]> c).
Proof.
  intros Hc k v. destruct (decide (t = k)); subst.
  - rewrite lookup_insert_eq. intros [= <-].
    pose proof (counter_getitem_nonneg c k Hc).
    unfold Py.counter_getitem in *. lia.
  - rewrite lookup_insert_ne by done. apply Hc.
Qed.

Lemma Counter_spec tokens :
  positive_counts (Py.Counter tokens)
  /\ forall w, Py.counter_getitem (Py.Counter tokens) w = count_word w tokens.
Proof.
  unfold Py.Counter.
  assert (forall c, positive_counts c ->
    positive_counts
      (foldl (fun c t => <[t := default 0 (c !! t) + 1]> c) c tokens)
    /\ forall w,
      Py.counter_getitem
        (foldl (fun c t => <[t := default 0 (c !! t) + 1]> c) c tokens) w
      = Py.counter_getitem c w + count_word w tokens) as Hgen.
  { induction tokens as [|t rest IH]; intros c Hc; simpl.
    - split; [done | intros; lia].
    - destruct (IH _ (counter_step_positive c t Hc)) as [Hp Hg].
      split; [done |]. intros w. rewrite Hg, counter_step_getitem. lia. }
  destruct (Hgen ∅ positive_counts_empty) as [Hp Hg].
  split; [done |]. intros w. rewrite Hg.
  unfold Py.counter_getitem. by rewrite lookup_empty.
Qed.

Lemma counter_iadd_positive a b : positive_counts (Py.counter_iadd a b).
Proof.
  intros k v. unfold Py.counter_iadd. rewrite lookup_merge.
  destruct (a !! k), (b !! k); simpl; try done;
    case_decide; intros [= <-]; done.
Qed.

Lemma counter_iadd_getitem a b w :
  positive_counts a -> positive_counts b ->
  Py.counter_getitem (Py.counter_iadd a b) w
  = Py.counter_getitem a w + Py.counter_getitem b w.
Proof.
  intros Ha Hb. unfold Py.counter_getitem, Py.counter_iadd.
  rewrite lookup_merge.
  destruct (a !! w) as [x|] eqn:Ea, (b !! w) as [y|] eqn:Eb; simpl; try done;
    try (apply Ha in Ea); try (apply Hb in Eb); case_decide; simpl; lia.
Qed.

Lemma count_word_filter_ne w k (l : list string) :
  count_word w (filter (fun t => t <> k) l)
  = if decide (w = k) then 0 else count_word w l.
Proof.
  induction l as [|t rest IH]; simpl.
  - by case_decide.
  - rewrite filter_cons. destruct (decide (t <> k)) as [Hne|Heq]; simpl.
    + rewrite IH. repeat case_decide; subst; try done; lia.
    + apply dec_stable in Heq. subst. rewrite IH.
      repeat case_decide; subst; try done; lia.
Qed.

Lemma length_filter_ne k (l : list string) :
  Z.of_nat (length l)
  = count_word k l + Z.of_nat (length (filter (fun t => t <> k) l)).
Proof.
  induction l as [|t rest IH]; simpl; [done |].
  rewrite filter_cons. destruct (decide (t <> k)) as [Hne|Heq]; simpl.
  - case_decide; [done | lia].
  - apply dec_stable in Heq. subst. case_decide; [lia | done].
Qed.

Lemma sum_values_empty : Py.sum_values ∅ = 0.
Proof. unfold Py.sum_values. by rewrite map_fold_empty. Qed.

Lemma sum_values_insert (c : gmap string Z) k v :
  c !! k = None -> Py.sum_values (<[k := v]> c) = v + Py.sum_values c.
Proof.
  intros Hk. unfold Py.sum_values.
  rewrite map_fold_insert_L; [done | intros; lia | done].
Qed.

(** [sum(c.values())] is the number of tokens counted. *)
Lemma sum_values_length c :
  forall l : list string,
    positive_counts c ->
    (forall w, Py.counter_getitem c w = count_word w l) ->
    Py.sum_values c = Z.of_nat (length l).
Proof.
  induction c as [|k v m Hk IH] using map_ind; intros l Hpos Hcount.
  - rewrite sum_values_empty. destruct l as [|t rest]; [done |].
    specialize (Hcount t). unfold Py.counter_getitem in Hcount.
    rewrite lookup_empty in Hcount. simpl in Hcount.
    pose proof (count_word_nonneg t rest). case_decide; [lia | done].
  - rewrite sum_values_insert by done.
    rewrite (length_filter_ne k l).
    rewrite <- (IH (filter (fun t => t <> k) l)).
    + specialize (Hcount k). unfold Py.counter_getitem in Hcount.
      rewrite lookup_insert_eq in Hcount. simpl in Hcount. lia.
    + intros j x Hj. apply (Hpos j x).
      rewrite lookup_insert_ne; [done | congruence].
    + intros w. rewrite count_word_filter_ne. case_decide; subst.
      * unfold Py.counter_getitem. by rewrite Hk.
      * rewrite <- Hcount. unfold Py.counter_getitem.
        by rewrite lookup_insert_ne.
Qed.

(** Summing the counts over any word set that covers the Counter's keys
    gives [sum(c.values())]. *)
Lemma Zsum_Permutation f l1 l2 : l1 ≡ₚ l2 -> Zsum f l1 = Zsum f l2.
Proof. unfold Zsum. induction 1; simpl; lia. Qed.

Lemma Zsum_ext f g l :
  (forall w, w ∈ l -> f w = g w) -> Zsum f l = Zsum g l.
Proof.
  unfold Zsum. induction l as [|t rest IH]; intros Hfg; simpl; [done |].
  rewrite Hfg by (apply elem_of_cons; by left).
  rewrite IH; [done |]. intros w Hw. apply Hfg. apply elem_of_cons. by right.
Qed.

Lemma Zsum_zero f l : (forall w, w ∈ l -> f w = 0) -> Zsum f l = 0.
Proof.
  unfold Zsum. induction l as [|t rest IH]; intros Hf; simpl; [done |].
  rewrite Hf by (apply elem_of_cons; by left).
  rewrite IH; [done |]. intros w Hw. apply Hf. apply elem_of_cons. by right.
Qed.

Lemma Zsum_getitem_elements c :
  forall V : gset string,
    dom c ⊆ V ->
    Zsum (Py.counter_getitem c) (elements V) = Py.sum_values c.
Proof.
  induction c as [|k v m Hk IH] using map_ind; intros V HV.
  - rewrite sum_values_empty. apply Zsum_zero. intros w _.
    unfold Py.counter_getitem. by rewrite lookup_empty.
  - rewrite sum_values_insert by done.
    assert (k ∈ V) as HkV by (apply HV; set_solver).
    assert (V = {[k]} ∪ (V ∖ {[k]})) as HVk.
    { apply set_eq. intros x. destruct (decide (x = k)); set_solver. }
    rewrite HVk at 1.
    rewrite (Zsum_Permutation _ _ (k :: elements (V ∖ {[k]})))
      by (apply elements_union_singleton; set_solver).
    unfold Zsum at 1. simpl. fold (Zsum (Py.counter_getitem (<[k:=v]> m))
                                     (elements (V ∖ {[k]}))).
    rewrite (Zsum_ext _ (Py.counter_getitem m)).
    + rewrite IH.
      * unfold Py.counter_getitem at 1. by rewrite lookup_insert_eq.
      * apply not_elem_of_dom in Hk. rewrite dom_insert in HV. set_solver.
    + intros w Hw. apply elem_of_elements in Hw.
      unfold Py.counter_getitem. rewrite lookup_insert_ne; [done | set_solver].
Qed.

(** ** Python arithmetic *)

Lemma bind_Ok {A B} (f : A -> result B) (a : A) : (Ok a ≫= f) = f a.
Proof. reflexivity. Qed.

Lemma bind_Raise {A B} (f : A -> result B) (e : exception) :
  (Raise e ≫= f) = Raise e.
Proof. reflexivity. Qed.

Lemma truediv_ok a b : b <> 0 -> Py.truediv a b = Ok (IZR a / IZR b)%R.
Proof. intros Hb. unfold Py.truediv. by rewrite decide_False. Qed.

Lemma truediv_zero a : Py.truediv a 0 = Raise ZeroDivisionError.
Proof. reflexivity. Qed.

Lemma math_log_ok x : (0 < x)%R -> Py.math_log x = Ok (ln x).
Proof.
  intros Hx. unfold Py.math_log. destruct (Rle_dec x 0); [lra | done].
Qed.

Lemma math_log_domain x : (x <= 0)%R -> Py.math_log x = Raise ValueError.
Proof.
  intros Hx. unfold Py.math_log. destruct (Rle_dec x 0); [done | lra].
Qed.

Lemma ratio_pos a b : 0 < a -> 0 < b -> (0 < IZR a / IZR b)%R.
Proof.
  intros Ha Hb. apply Rdiv_lt_0_compat; by apply (IZR_lt 0).
Qed.

(** [math.log(a / b)] on two positive ints. *)
Lemma log_ratio_ok a b :
  0 < a -> 0 < b ->
  (Py.truediv a b ≫= Py.math_log) = Ok (ln (IZR a / IZR b)).
Proof.
  intros Ha Hb. rewrite truediv_ok by lia. rewrite bind_Ok.
  apply math_log_ok. by apply ratio_pos.
Qed.

Lemma float_eq_true x y : Py.float_eq x y = true <-> x = y.
Proof. unfold Py.float_eq. destruct (Req_dec_T x y); split; congruence. Qed.

Lemma float_gt_true x y : Py.float_gt x y = true <-> (x > y)%R.
Proof. unfold Py.float_gt. destruct (Rgt_dec x y); split; congruence. Qed.

Lemma samples_of_listing_Permutation `{TextServices} files files' :
  files ≡ₚ files' -> samples_of_listing files ≡ₚ samples_of_listing files'.
Proof.
  induction 1 as [|[name contents] l l' _ IH|[n1 c1] [n2 c2] l|l1 l2 l3 _ IH1 _ IH2];
    simpl.
  - done.
  - destruct (pattern_match name) as [[review_id rating]|]; [by constructor | done].
  - destruct (pattern_match n1) as [[i1 r1]|], (pattern_match n2) as [[i2 r2]|];
      try done. apply perm_swap.
  - by etrans.
Qed.

(** ** Training *)

Section Training.
Context `{TextServices}.
Import NaiveBayesClassifier.


Lemma bow_loop_spec sw lem samples :
  forall n bow,
    positive_counts bow ->
    (bow_loop sw lem samples n bow).1 = n + Z.of_nat (length samples)
    /\ positive_counts (bow_loop sw lem samples n bow).2
    /\ forall w,
        Py.counter_getitem (bow_loop sw lem samples n bow).2 w
        = Py.counter_getitem bow w
          + count_word w (class_tokens sw lem samples).
Proof.
  induction samples as [|s rest IH]; intros n bow Hbow; simpl.
  - repeat split; [lia | done | intros; lia].
  - destruct (Counter_spec (tokenize sw lem s.1.2)) as [Hcp Hcg].
    destruct (IH (n + 1)
                 (Py.counter_iadd bow (Py.Counter (tokenize sw lem s.1.2)))
                 (counter_iadd_positive _ _)) as (Hn & Hp & Hg).
    repeat split; [lia | done |]. intros w.
    rewrite Hg, counter_iadd_getitem, Hcg by done.
    unfold class_tokens. simpl. rewrite count_word_app.
    fold (class_tokens sw lem rest). lia.
Qed.


Lemma bow_loop_bag sw lem samples :
  bow_loop sw lem samples 0 ∅
  = (Z.of_nat (length samples), bag sw lem samples).
Proof.
  destruct (bow_loop_spec sw lem samples 0 ∅ positive_counts_empty)
    as (Hn & _ & _).
  unfold bag. destruct (bow_loop sw lem samples 0 ∅) as [n b].
  simpl in *. by subst.
Qed.

Lemma bag_positive sw lem samples : positive_counts (bag sw lem samples).
Proof.
  by destruct (bow_loop_spec sw lem samples 0 ∅ positive_counts_empty)
    as (_ & Hp & _).
Qed.

Lemma bag_getitem sw lem samples w :
  Py.counter_getitem (bag sw lem samples) w
  = count_word w (class_tokens sw lem samples).
Proof.
  destruct (bow_loop_spec sw lem samples 0 ∅ positive_counts_empty)
    as (_ & _ & Hg).
  unfold bag. rewrite Hg. unfold Py.counter_getitem.
  by rewrite lookup_empty.
Qed.

Lemma bag_sum_values sw lem samples :
  Py.sum_values (bag sw lem samples)
  = Z.of_nat (length (class_tokens sw lem samples)).
Proof.
  apply sum_values_length; [apply bag_positive | apply bag_getitem].
Qed.

Lemma bag_dom sw lem samples :
  dom (bag sw lem samples) = list_to_set (class_tokens sw lem samples).
Proof.
  apply set_eq. intros w.
  rewrite elem_of_list_to_set, <- count_word_pos_elem_of, <- bag_getitem.
  rewrite elem_of_dom. pose proof (bag_positive sw lem samples) as Hp.
  unfold Py.counter_getitem.
  destruct (bag sw lem samples !! w) as [v|] eqn:E; simpl.
  - apply Hp in E. split; [done | by eauto].
  - split; [by intros [? ?] | lia].
Qed.


Lemma vocabulary_dom sw lem pos neg :
  dom (bag sw lem pos) ∪ dom (bag sw lem neg) = vocabulary sw lem pos neg.
Proof.
  unfold vocabulary. rewrite !bag_dom. by rewrite list_to_set_app_L.
Qed.

Lemma likelihood_loop_spec bow den words :
  positive_counts bow -> words = [] \/ 0 < den ->
  forall init, exists m,
    likelihood_loop bow den words init = Ok m
    /\ forall w, m !! w
         = if decide (w ∈ words)
           then Some (ln (IZR (Py.counter_getitem bow w + 1) / IZR den))
           else init !! w.
Proof.
  intros Hbow. induction words as [|word rest IH]; intros Hden init.
  - exists init. split; [done |]. intros w.
    rewrite decide_False; [done | apply not_elem_of_nil].
  - destruct Hden as [|Hden]; [done |]. simpl.
    pose proof (counter_getitem_nonneg bow word Hbow).
    rewrite truediv_ok by lia. rewrite bind_Ok.
    rewrite math_log_ok by (apply ratio_pos; lia). rewrite bind_Ok.
    destruct (IH (or_intror Hden)
                 (<[word := ln (IZR (Py.counter_getitem bow word + 1) / IZR den)]> init))
      as (m & Hm & Hl).
    exists m. split; [done |]. intros w. rewrite Hl.
    destruct (decide (w ∈ rest)) as [Hin|Hnin].
    + rewrite decide_True; [done | apply elem_of_cons; by right].
    + destruct (decide (w = word)) as [->|Hne].
      * rewrite lookup_insert_eq, decide_True; [done | apply elem_of_cons; by left].
      * rewrite lookup_insert_ne by done. rewrite decide_False; [done |].
        rewrite elem_of_cons. tauto.
Qed.

Lemma bind_log_ratio {B} a b (k : R -> result B) :
  0 < a -> 0 < b ->
  (Py.truediv a b ≫= fun q => Py.math_log q ≫= k) = k (ln (IZR a / IZR b)).
Proof.
  intros Ha Hb. rewrite truediv_ok by lia. rewrite bind_Ok.
  rewrite math_log_ok by (by apply ratio_pos). by rewrite bind_Ok.
Qed.

Lemma train_model_ok sw lem fs pos neg :
  get_samples (train_pos fs) = Ok pos -> get_samples (train_neg fs) = Ok neg ->
  pos <> [] -> neg <> [] ->
  exists p, _train_model sw lem fs = Ok (p, write_saved_params fs p) /\ trained sw lem pos neg p.
Proof.
  intros Hp Hn Hpne Hnne. unfold _train_model.
  rewrite Hp, bind_Ok, bow_loop_bag. cbv beta iota zeta.
  rewrite Hn, bind_Ok, bow_loop_bag. cbv beta iota zeta.
  assert (0 < Z.of_nat (length pos)) by (destruct pos; simpl; [done | lia]).
  assert (0 < Z.of_nat (length neg)) by (destruct neg; simpl; [done | lia]).
  rewrite (bind_log_ratio (Z.of_nat (length pos))) by lia.
  rewrite (bind_log_ratio (Z.of_nat (length neg))) by lia.
  rewrite vocabulary_dom, !bag_sum_values.
  set (V := vocabulary sw lem pos neg).
  set (P := class_tokens sw lem pos). set (N := class_tokens sw lem neg).
  assert (forall l : list string,
            elements V = [] \/ 0 < Z.of_nat (length l) + Z.of_nat (size V))
    as Hden.
  { intros l. destruct (decide (V = ∅)) as [->|HV].
    - left. apply elements_empty.
    - right. assert (size V <> 0%nat) by (apply size_non_empty_iff; by intros ?%leibniz_equiv). lia. }
  destruct (likelihood_loop_spec (bag sw lem pos) _ (elements V)
              (bag_positive sw lem pos) (Hden P) ∅) as (mp & Hmp & Hlp).
  destruct (likelihood_loop_spec (bag sw lem neg) _ (elements V)
              (bag_positive sw lem neg) (Hden N) ∅) as (mn & Hmn & Hln).
  rewrite Hmp, bind_Ok, Hmn, bind_Ok.
  eexists. split; [reflexivity |].
  subst V P N. split; simpl; try done.
  - intros w. rewrite Hlp, bag_getitem, lookup_empty. unfold laplace.
    repeat case_decide; try done;
      exfalso; set_solver.
  - intros w. rewrite Hln, bag_getitem, lookup_empty. unfold laplace.
    repeat case_decide; try done;
      exfalso; set_solver.
Qed.

Lemma bind_log_zero {B} b (k : R -> result B) :
  b <> 0 ->
  (Py.truediv 0 b ≫= fun q => Py.math_log q ≫= k) = Raise ValueError.
Proof.
  intros Hb. rewrite truediv_ok by done. rewrite bind_Ok.
  rewrite math_log_domain; [done |]. unfold Rdiv. rewrite Rmult_0_l. lra.
Qed.

(** Training fails when a class has no sample. *)
Lemma train_model_empty sw lem fs pos neg :
  get_samples (train_pos fs) = Ok pos ->
  get_samples (train_neg fs) = Ok neg ->
  pos = [] \/ neg = [] ->
  _train_model sw lem fs
  = Raise (if decide (pos = [] /\ neg = [])
           then ZeroDivisionError else ValueError).
Proof.
  intros Hp Hn Hempty. unfold _train_model.
  rewrite Hp, bind_Ok, bow_loop_bag. cbv beta iota zeta.
  rewrite Hn, bind_Ok, bow_loop_bag. cbv beta iota zeta.
  destruct pos as [|sp pos'], neg as [|sn neg'].
  - rewrite decide_True by done. done.
  - rewrite decide_False by (by intros [_ ?]).
    change (Z.of_nat (length (@nil sample))) with 0.
    by rewrite bind_log_zero by (simpl; lia).
  - rewrite decide_False by (by intros [? _]).
    rewrite (bind_log_ratio (Z.of_nat (length (sp :: pos')))) by (simpl; lia).
    change (Z.of_nat (length (@nil sample))) with 0.
    by rewrite bind_log_zero by (simpl; lia).
  - by destruct Hempty.
Qed.

Lemma train_model_missing sw lem fs :
  train_pos fs = None \/ train_neg fs = None ->
  _train_model sw lem fs = Raise AssertionError.
Proof.
  intros Hmissing. unfold _train_model.
  destruct (train_pos fs) as [files|] eqn:Ep; [| done].
  change (get_samples (Some files)) with (Ok (samples_of_listing files)).
  rewrite bind_Ok.
  destruct (bow_loop sw lem (samples_of_listing files) 0 ∅) as [n b].
  destruct Hmissing as [Hm | Hm]; [done | by rewrite Hm].
Qed.

(** [__init__] when the parameters are those of a training run. *)
Lemma init_retrain_ok sw lem fs pos neg :
  get_samples (train_pos fs) = Ok pos ->
  get_samples (train_neg fs) = Ok neg ->
  pos <> [] -> neg <> [] -> vocabulary sw lem pos neg <> ∅ ->
  exists p,
    trained sw lem pos neg p
    /\ __init__ true sw lem fs
       = Ok ({| should_retrain := true;
                should_use_stopwords := sw;
                should_lemmatize := lem;
                params := p;
                def_pos_ll := ln (IZR 1 / IZR (n_pos_words p + n_vocab p));
                def_neg_ll := ln (IZR 1 / IZR (n_neg_words p + n_vocab p)) |},
             write_saved_params fs p).
Proof.
  intros Hp Hn Hpne Hnne HV.
  destruct (train_model_ok sw lem fs pos neg Hp Hn Hpne Hnne)
    as (p & Htrain & Hp').
  exists p. split; [done |]. unfold __init__, _init_params.
  assert (_train_model sw lem fs = Ok (p, write_saved_params fs p)
          -> (match saved_params fs with
              | Some loaded =>
                  if negb true then Ok (loaded, fs)
                  else _train_model sw lem fs
              | None => _train_model sw lem fs
              end) = Ok (p, write_saved_params fs p)) as Hinit
    by (destruct (saved_params fs); done).
  rewrite (Hinit Htrain), bind_Ok. cbv beta iota zeta.
  assert (0 < n_vocab p).
  { rewrite (trained_n_vocab _ _ _ _ _ Hp').
    assert (size (vocabulary sw lem pos neg) <> 0%nat)
      by (apply size_non_empty_iff; by intros ?%leibniz_equiv).
    lia. }
  assert (0 <= n_pos_words p) by (rewrite (trained_n_pos_words _ _ _ _ _ Hp'); lia).
  assert (0 <= n_neg_words p) by (rewrite (trained_n_neg_words _ _ _ _ _ Hp'); lia).
  rewrite (bind_log_ratio 1 (n_pos_words p + n_vocab p)) by lia.
  rewrite (bind_log_ratio 1 (n_neg_words p + n_vocab p)) by lia.
  done.
Qed.

(** The default likelihoods of every classifier that [__init__] gives. *)
Lemma init_default_likelihoods retrain sw lem fs s fs' :
  __init__ retrain sw lem fs = Ok (s, fs') ->
  def_pos_ll s
  = ln (IZR 1 / IZR (n_pos_words (params s) + n_vocab (params s)))
  /\ def_neg_ll s
     = ln (IZR 1 / IZR (n_neg_words (params s) + n_vocab (params s))).
Proof.
  unfold __init__.
  destruct (_init_params retrain sw lem fs) as [[p fs0]|e]; [| done].
  rewrite bind_Ok. cbv beta iota zeta.
  unfold Py.truediv, Py.math_log.
  repeat match goal with
         | |- context [decide (?a = 0)] =>
             destruct (decide (a = 0)); [by rewrite bind_Raise |];
             rewrite bind_Ok
         | |- context [Rle_dec ?x 0] =>
             destruct (Rle_dec x 0); [by rewrite bind_Raise |];
             rewrite bind_Ok
         end.
  intros Heq. inversion Heq; subst. done.
Qed.
Lemma class_tokens_Permutation sw lem samples samples' :
  samples ≡ₚ samples' ->
  class_tokens sw lem samples ≡ₚ class_tokens sw lem samples'.
Proof.
  unfold class_tokens.
  induction 1 as [|s l l' _ IH|s1 s2 l|l1 l2 l3 _ IH1 _ IH2]; simpl.
  - done.
  - by apply Permutation_app_head.
  - rewrite !app_assoc. apply Permutation_app_tail, Permutation_app_comm.
  - by etrans.
Qed.

Lemma vocabulary_Permutation sw lem pos pos' neg neg' :
  pos ≡ₚ pos' -> neg ≡ₚ neg' ->
  vocabulary sw lem pos neg = vocabulary sw lem pos' neg'.
Proof.
  intros Hp Hn. unfold vocabulary. apply set_eq. intros w.
  rewrite !elem_of_list_to_set, !elem_of_app.
  by rewrite (class_tokens_Permutation sw lem pos pos' Hp),
             (class_tokens_Permutation sw lem neg neg' Hn).
Qed.

(** What training computes does not depend on the order of the samples. *)
Lemma trained_Permutation sw lem pos pos' neg neg' p :
  pos ≡ₚ pos' -> neg ≡ₚ neg' ->
  trained sw lem pos neg p -> trained sw lem pos' neg' p.
Proof.
  intros Hp Hn [Hpp Hnp Hpw Hnw Hv Hpl Hnl].
  pose proof (class_tokens_Permutation sw lem pos pos' Hp) as HP.
  pose proof (class_tokens_Permutation sw lem neg neg' Hn) as HN.
  split.
  - by rewrite <- (Permutation_length Hp), <- (Permutation_length Hn).
  - by rewrite <- (Permutation_length Hp), <- (Permutation_length Hn).
  - by rewrite <- (Permutation_length HP).
  - by rewrite <- (Permutation_length HN).
  - by rewrite <- (vocabulary_Permutation sw lem pos pos' neg neg' Hp Hn).
  - intros w. rewrite Hpl.
    rewrite (vocabulary_Permutation sw lem pos pos' neg neg' Hp Hn).
    by rewrite (count_word_Permutation w _ _ HP).
  - intros w. rewrite Hnl.
    rewrite (vocabulary_Permutation sw lem pos pos' neg neg' Hp Hn).
    by rewrite (count_word_Permutation w _ _ HN).
Qed.

(** The samples determine the trained parameters. *)
Lemma trained_unique sw lem pos neg p p' :
  trained sw lem pos neg p -> trained sw lem pos neg p' -> p = p'.
Proof.
  intros [Hpp Hnp Hpw Hnw Hv Hpl Hnl] [Hpp' Hnp' Hpw' Hnw' Hv' Hpl' Hnl'].
  assert (pos_likelihood p = pos_likelihood p') as Hl1.
  { apply map_eq. intros w. rewrite Hpl, Hpl'. by rewrite Hpw, Hpw', Hv, Hv'. }
  assert (neg_likelihood p = neg_likelihood p') as Hl2.
  { apply map_eq. intros w. rewrite Hnl, Hnl'. by rewrite Hnw, Hnw', Hv, Hv'. }
  destruct p, p'. simpl in *. congruence.
Qed.
End Training.
(** ** Classification *)

Section Classification.
Context `{TextServices} `{FloatArith}.
Import NaiveBayesClassifier.

Lemma with_likelihoods_id s :
  with_likelihoods s (pos_likelihood (params s)) (neg_likelihood (params s))
  = s.
Proof. by destruct s as [? ? ? [] ? ?]. Qed.

Lemma pos_likelihood_get_spec s word dflt :
  pos_likelihood_get s word dflt
  = (default dflt (pos_likelihood (params s) !! word), s).
Proof.
  unfold pos_likelihood_get, Py.dict_get. by rewrite with_likelihoods_id.
Qed.

Lemma neg_likelihood_get_spec s word dflt :
  neg_likelihood_get s word dflt
  = (default dflt (neg_likelihood (params s) !! word), s).
Proof.
  unfold neg_likelihood_get, Py.dict_get. by rewrite with_likelihoods_id.
Qed.

Lemma classify_loop_cons s word rest positive negative :
  classify_loop s (word :: rest) positive negative
  = let positive :=
      float_add positive
                (default (def_pos_ll s) (pos_likelihood (params s) !! word))
    in
    let negative :=
      float_add negative
                (default (def_neg_ll s) (neg_likelihood (params s) !! word))
    in
    if sanity_check_fails positive negative
    then (Raise AssertionError, s)
    else classify_loop s rest positive negative.
Proof.
  cbn [classify_loop].
  rewrite pos_likelihood_get_spec, neg_likelihood_get_spec. done.
Qed.

Lemma sanity_check_fails_true positive negative :
  sanity_check_fails positive negative = true
  <-> zero_or_tie positive negative.
Proof.
  unfold sanity_check_fails, zero_or_tie.
  rewrite !orb_true_iff, !float_eq_true. tauto.
Qed.

Lemma sanity_check_fails_false positive negative :
  sanity_check_fails positive negative = false
  <-> ~ zero_or_tie positive negative.
Proof.
  rewrite <- sanity_check_fails_true.
  destruct (sanity_check_fails positive negative); split; congruence.
Qed.

(** The loop either stops at the first prefix of the tokens whose scores
    fail the check, or runs to the end and gives the two scores. *)
Lemma classify_loop_spec s words :
  forall positive negative,
    let pos_after k :=
      accumulate (pos_likelihood (params s)) (def_pos_ll s) positive
                 (take k words) in
    let neg_after k :=
      accumulate (neg_likelihood (params s)) (def_neg_ll s) negative
                 (take k words) in
    ((exists k, (0 < k <= length words)%nat
               /\ zero_or_tie (pos_after k) (neg_after k))
     /\ classify_loop s words positive negative = (Raise AssertionError, s))
    \/ ((forall k, (0 < k <= length words)%nat ->
                   ~ zero_or_tie (pos_after k) (neg_after k))
        /\ classify_loop s words positive negative
           = (Ok (pos_after (length words), neg_after (length words)), s)).
Proof.
  induction words as [|word rest IH]; intros positive negative; cbv zeta.
  - right. split; [simpl; intros k Hk; lia | done].
  - rewrite classify_loop_cons. cbv zeta.
    set (p1 := float_add positive
                 (default (def_pos_ll s) (pos_likelihood (params s) !! word))).
    set (n1 := float_add negative
                 (default (def_neg_ll s) (neg_likelihood (params s) !! word))).
    specialize (IH p1 n1). cbv zeta in IH.
    destruct (sanity_check_fails p1 n1) eqn:Echeck.
    + left. split; [| done]. exists 1%nat. split; [simpl; lia |].
      by apply sanity_check_fails_true.
    + destruct IH as [[(k & Hk & Hfail) Hloop] | [Hpass Hloop]].
      * left. split; [| done]. exists (S k). split; [simpl; lia | done].
      * right. split; [| done]. intros [|[|k]] Hk; [lia | |].
        -- by apply sanity_check_fails_false.
        -- apply (Hpass (S k)). simpl in Hk. lia.
Qed.

Lemma classify_spec s text :
  let words := tokens_of s text in
  ((exists k, (0 < k <= length words)%nat
             /\ zero_or_tie (score_pos s (take k words))
                            (score_neg s (take k words)))
   /\ classify s text = (Raise AssertionError, s))
  \/ ((forall k, (0 < k <= length words)%nat ->
                 ~ zero_or_tie (score_pos s (take k words))
                               (score_neg s (take k words)))
      /\ classify s text
         = (Ok (if Py.float_gt (score_pos s words) (score_neg s words)
                then 1 else -1), s)).
Proof.
  intros words. unfold classify. fold (tokens_of s text). fold words.
  destruct (classify_loop_spec s words (pos_prior (params s))
              (neg_prior (params s))) as [[Hfail ->] | [Hpass ->]].
  - left. split; done.
  - right. split; [done |]. rewrite firstn_all. done.
Qed.

Lemma classify_self s text : (classify s text).2 = s.
Proof.
  destruct (classify_spec s text) as [[_ ->] | [_ ->]]; done.
Qed.

Lemma classify_raises_iff s text :
  (classify s text).1 = Raise AssertionError
  <-> exists k, (0 < k <= length (tokens_of s text))%nat
             /\ zero_or_tie (score_pos s (take k (tokens_of s text)))
                            (score_neg s (take k (tokens_of s text))).
Proof.
  destruct (classify_spec s text) as [[Hfail ->] | [Hpass ->]]; simpl.
  - split; done.
  - split; [done |]. intros (k & Hk & Hz). by destruct (Hpass k Hk).
Qed.

End Classification.

(** ** The mass of a smoothed distribution *)

Lemma Rsum_Permutation f l1 l2 : l1 ≡ₚ l2 -> Rsum f l1 = Rsum f l2.
Proof. unfold Rsum. induction 1; simpl; lra. Qed.

Lemma Rsum_ext f g l :
  (forall w, w ∈ l -> f w = g w) -> Rsum f l = Rsum g l.
Proof.
  unfold Rsum. induction l as [|t rest IH]; intros Hfg; simpl; [done |].
  rewrite Hfg by (apply elem_of_cons; by left).
  rewrite IH; [done |]. intros w Hw. apply Hfg. apply elem_of_cons. by right.
Qed.

Lemma Rsum_ratio (c : string -> Z) (d : Z) l :
  Rsum (fun w => (IZR (c w) / IZR d)%R) l = (IZR (Zsum c l) / IZR d)%R.
Proof.
  unfold Rsum, Zsum. induction l as [|t rest IH]; simpl.
  - unfold Rdiv. by rewrite Rmult_0_l.
  - rewrite IH, plus_IZR. unfold Rdiv. lra.
Qed.

Lemma Zsum_succ (c : string -> Z) l :
  Zsum (fun w => c w + 1) l = Zsum c l + Z.of_nat (length l).
Proof.
  unfold Zsum. induction l as [|t rest IH]; simpl length; simpl foldr; lia.
Qed.

Lemma mass_empty : mass ∅ = 0%R.
Proof. unfold mass. by rewrite map_fold_empty. Qed.

Lemma mass_insert (m : gmap string R) k v :
  m !! k = None -> mass (<[k := v]> m) = (exp v + mass m)%R.
Proof.
  intros Hk. unfold mass.
  rewrite map_fold_insert_L; [done | intros; lra | done].
Qed.

(** The mass of a dict that holds [f w] for exactly the words of [V]. *)
Lemma mass_elements (m : gmap string R) (f : string -> R) :
  forall V : gset string,
    (forall w, m !! w = if decide (w ∈ V) then Some (f w) else None) ->
    mass m = Rsum (fun w => exp (f w)) (elements V).
Proof.
  induction m as [|k v m Hk IH] using map_ind; intros V Hm.
  - assert (V = ∅) as ->.
    { apply set_eq. intros w. specialize (Hm w). rewrite lookup_empty in Hm.
      case_decide; [done | set_solver]. }
    by rewrite mass_empty, elements_empty.
  - rewrite mass_insert by done.
    assert (k ∈ V /\ f k = v) as [HkV Hfk].
    { specialize (Hm k). rewrite lookup_insert_eq in Hm.
      case_decide; [split; congruence | done]. }
    assert (V = {[k]} ∪ (V ∖ {[k]})) as HVk.
    { apply set_eq. intros x. destruct (decide (x = k)); set_solver. }
    rewrite HVk at 1.
    rewrite (Rsum_Permutation _ _ (k :: elements (V ∖ {[k]})))
      by (apply elements_union_singleton; set_solver).
    unfold Rsum at 1. simpl.
    fold (Rsum (fun w => exp (f w)) (elements (V ∖ {[k]}))).
    rewrite <- (IH (V ∖ {[k]})), Hfk; [done |].
    intros w. specialize (Hm w). destruct (decide (w = k)) as [->|Hne].
    + rewrite Hk. rewrite decide_False; [done | set_solver].
    + rewrite lookup_insert_ne in Hm by done. rewrite Hm.
      repeat case_decide; try done; exfalso; set_solver.
Qed.

Lemma size_elements (V : gset string) : size V = length (elements V).
Proof. reflexivity. Qed.

(** The smoothed likelihoods of one class over the vocabulary add up to 1. *)
Lemma mass_laplace (likelihood : gmap string R) (bow : gmap string Z)
    (V : gset string) :
  positive_counts bow -> dom bow ⊆ V -> V <> ∅ ->
  (forall w, likelihood !! w
             = if decide (w ∈ V)
               then Some (laplace (Py.counter_getitem bow w)
                                  (Py.sum_values bow) (Z.of_nat (size V)))
               else None) ->
  mass likelihood = 1%R.
Proof.
  intros Hpos Hdom HV Hl.
  rewrite (mass_elements likelihood _ V Hl).
  assert (0 < Z.of_nat (size V)).
  { assert (size V <> 0%nat)
      by (apply size_non_empty_iff; by intros ?%leibniz_equiv). lia. }
  assert (0 <= Py.sum_values bow).
  { rewrite <- (Zsum_getitem_elements bow V Hdom). unfold Zsum.
    induction (elements V) as [|t rest IH]; simpl; [lia |].
    pose proof (counter_getitem_nonneg bow t Hpos). lia. }
  rewrite (Rsum_ext _ (fun w => (IZR (Py.counter_getitem bow w + 1)
                                 / IZR (Py.sum_values bow
                                        + Z.of_nat (size V)))%R)).
  - rewrite Rsum_ratio, Zsum_succ, Zsum_getitem_elements by done.
    rewrite <- size_elements. apply Rdiv_diag.
    apply not_0_IZR. lia.
  - intros w _. unfold laplace. apply exp_ln.
    pose proof (counter_getitem_nonneg bow w Hpos). apply ratio_pos; lia.
Qed.

(** ** The metrics of evaluate *)

Lemma float_truediv_ok x y : y <> 0%R -> Py.float_truediv x y = Ok (x / y)%R.
Proof.
  intros Hy. unfold Py.float_truediv. by destruct (Req_dec_T y 0).
Qed.

Lemma compute_metrics_ok tp tn fp fn :
  tp + fp <> 0 -> tp + fn <> 0 ->
  (IZR tp / IZR (tp + fp) + IZR tp / IZR (tp + fn))%R <> 0%R ->
  tp + fp + tn + fn <> 0 ->
  compute_metrics tp tn fp fn
  = Ok {| precision := IZR tp / IZR (tp + fp);
          recall := IZR tp / IZR (tp + fn);
          f_measure :=
            2 * (IZR tp / IZR (tp + fp)) * (IZR tp / IZR (tp + fn))
            / (IZR tp / IZR (tp + fp) + IZR tp / IZR (tp + fn));
          accuracy := IZR (tp + tn) / IZR (tp + fp + tn + fn) |}%R.
Proof.
  intros H1 H2 H3 H4. unfold compute_metrics.
  rewrite (truediv_ok tp (tp + fp)) by done. rewrite bind_Ok.
  rewrite (truediv_ok tp (tp + fn)) by done. rewrite bind_Ok.
  rewrite float_truediv_ok by done. rewrite bind_Ok.
  rewrite truediv_ok by done. by rewrite bind_Ok.
Qed.

Lemma compute_metrics_raises tp tn fp fn e :
  compute_metrics tp tn fp fn = Raise e
  <-> e = ZeroDivisionError
      /\ (tp + fp = 0 \/ tp + fn = 0
          \/ (IZR tp / IZR (tp + fp) + IZR tp / IZR (tp + fn))%R = 0%R
          \/ tp + fp + tn + fn = 0).
Proof.
  unfold compute_metrics.
  destruct (decide (tp + fp = 0)) as [H1|H1].
  { rewrite H1, truediv_zero, bind_Raise.
    split; [intros [= <-]; auto | by intros [-> _]]. }
  rewrite (truediv_ok tp (tp + fp)) by done. rewrite bind_Ok.
  destruct (decide (tp + fn = 0)) as [H2|H2].
  { rewrite H2, truediv_zero, bind_Raise.
    split; [intros [= <-]; auto | by intros [-> _]]. }
  rewrite (truediv_ok tp (tp + fn)) by done. rewrite bind_Ok.
  unfold Py.float_truediv.
  destruct (Req_dec_T _ 0) as [H3|H3].
  { rewrite bind_Raise. split; [intros [= <-]; auto | by intros [-> _]]. }
  rewrite bind_Ok.
  destruct (decide (tp + fp + tn + fn = 0)) as [H4|H4].
  { rewrite H4, truediv_zero, bind_Raise.
    split; [intros [= <-]; auto 6 | by intros [-> _]]. }
  rewrite truediv_ok by done. rewrite bind_Ok.
  split; [done |]. intros [_ [?|[?|[?|?]]]]; done.
Qed.

(** ** Further facts about classification *)

Section ClassificationFacts.
Context `{TextServices} `{FloatArith}.
Import NaiveBayesClassifier.

Lemma accumulate_snoc likelihood dflt prior ws w :
  accumulate likelihood dflt prior (ws ++ [w])
  = float_add (accumulate likelihood dflt prior ws)
              (default dflt (likelihood !! w)).
Proof. unfold accumulate. by rewrite foldl_app. Qed.

Lemma float_gt_cases x y :
  ((x > y)%R /\ Py.float_gt x y = true)
  \/ (~ (x > y)%R /\ Py.float_gt x y = false).
Proof. unfold Py.float_gt. destruct (Rgt_dec x y); auto. Qed.

(** A text whose words hold no letter from a to z has no token. *)
Lemma tokenize_no_letter sw lem text :
  Forall (fun token => has_a_to_z token = false)
         (word_tokenize (str_lower (str_strip text))) ->
  tokenize sw lem text = [].
Proof.
  intros Hall. unfold tokenize.
  assert (List.filter has_a_to_z (word_tokenize (str_lower (str_strip text)))
          = []) as ->.
  { induction Hall as [|t rest Ht _ IH]; [done |].
    cbn [List.filter]. by rewrite Ht. }
  by destruct lem, sw.
Qed.

(** With stop word filtering, a text of stop words has no token. *)
Lemma tokenize_stopwords_only text :
  Forall (fun token => token ∈ stopwords)
         (List.filter has_a_to_z
                      (word_tokenize (str_lower (str_strip text)))) ->
  tokenize true false text = [].
Proof.
  intros Hall. unfold tokenize.
  induction Hall as [|t rest Ht _ IH]; [done |].
  cbn [List.filter]. rewrite bool_decide_eq_false_2 by auto. exact IH.
Qed.

Lemma classify_no_tokens s text :
  tokens_of s text = [] ->
  classify s text
  = (Ok (if Py.float_gt (pos_prior (params s)) (neg_prior (params s))
         then 1 else -1), s).
Proof.
  intros Hempty. unfold classify. fold (tokens_of s text). by rewrite Hempty.
Qed.

(** [__init__] trains when asked to, or when no parameters were saved. *)
Lemma init_train_raises retrain sw lem fs e :
  retrain = true \/ saved_params fs = None ->
  _train_model sw lem fs = Raise e -> __init__ retrain sw lem fs = Raise e.
Proof.
  intros Hmust Htrain. unfold __init__, _init_params.
  destruct Hmust as [-> | ->].
  - destruct (saved_params fs); cbn [negb]; by rewrite Htrain.
  - by rewrite Htrain.
Qed.

Lemma trained_mass sw lem pos neg p :
  trained sw lem pos neg p -> vocabulary sw lem pos neg <> ∅ ->
  mass (pos_likelihood p) = 1%R /\ mass (neg_likelihood p) = 1%R.
Proof.
  intros [_ _ Hpw Hnw Hv Hpl Hnl] HV. split.
  - apply (mass_laplace _ (bag sw lem pos) (vocabulary sw lem pos neg)).
    + apply bag_positive.
    + rewrite <- vocabulary_dom. set_solver.
    + done.
    + intros w. by rewrite Hpl, bag_getitem, bag_sum_values, Hpw, Hv.
  - apply (mass_laplace _ (bag sw lem neg) (vocabulary sw lem pos neg)).
    + apply bag_positive.
    + rewrite <- vocabulary_dom. set_solver.
    + done.
    + intros w. by rewrite Hnl, bag_getitem, bag_sum_values, Hnw, Hv.
Qed.

(** [evaluate] applies [compute_metrics] to the counters of its loop. *)
Lemma evaluate_unfold retrain sw lem fs model fs1
    pos_samples neg_samples model1 model2 tp1 tn1 fp1 fn1 tp tn fp fn :
  __init__ retrain sw lem fs = Ok (model, fs1) ->
  get_samples (test_pos fs1) = Ok pos_samples ->
  evaluate_loop model pos_samples 0 0 0 0 = (Ok (tp1, tn1, fp1, fn1), model1) ->
  get_samples (test_neg fs1) = Ok neg_samples ->
  evaluate_loop model1 neg_samples tp1 tn1 fp1 fn1
  = (Ok (tp, tn, fp, fn), model2) ->
  evaluate retrain sw lem fs
  = (compute_metrics tp tn fp fn ≫= fun metrics => Ok (metrics, fs1)).
Proof.
  intros Hinit Hpos Hloop1 Hneg Hloop2. unfold evaluate.
  rewrite Hinit, bind_Ok. cbv beta iota zeta.
  rewrite Hpos, bind_Ok, Hloop1. cbv beta iota zeta.
  rewrite Hneg, bind_Ok, Hloop2. reflexivity.
Qed.

End ClassificationFacts.

Lemma exp_default_likelihood d :
  0 < d -> exp (ln (1 / IZR d)) = (1 / IZR d)%R.
Proof. intros Hd. apply exp_ln. by apply (ratio_pos 1 d). Qed.

Lemma ln_neg x : (0 < x < 1)%R -> (ln x < 0)%R.
Proof. intros [H0 H1]. rewrite <- ln_1. by apply ln_increasing. Qed.

Lemma Permutation_nil_iff {A} (l l' : list A) :
  l ≡ₚ l' -> l = [] <-> l' = [].
Proof.
  intros Hperm. split; intros ->.
  - by apply Permutation.Permutation_nil.
  - symmetry in Hperm. by apply Permutation.Permutation_nil.
Qed.

(** ** The balanced example *)

Section BalancedExample.
Import NaiveBayesClassifier.

Lemma balanced_model_trained :
  @trained PlainText.services false false
    (@samples_of_listing PlainText.services [("1_9.txt", "good film")])
    (@samples_of_listing PlainText.services [("2_2.txt", "bad film")])
    (params balanced_model).
Proof.
  assert (@vocabulary PlainText.services false false
            (@samples_of_listing PlainText.services [("1_9.txt", "good film")])
            (@samples_of_listing PlainText.services [("2_2.txt", "bad film")])
          = {["good"; "film"; "bad"]}) as HV by by_evaluation.
  split; cbn [params balanced_model pos_prior neg_prior n_pos_words
              n_neg_words n_vocab pos_likelihood neg_likelihood].
  - replace (Z.of_nat (length (@samples_of_listing PlainText.services
                                 [("1_9.txt", "good film")])))
      with 1 by by_evaluation.
    replace (Z.of_nat (length (@samples_of_listing PlainText.services
                                 [("2_2.txt", "bad film")])))
      with 1 by by_evaluation.
    reflexivity.
  - replace (Z.of_nat (length (@samples_of_listing PlainText.services
                                 [("1_9.txt", "good film")])))
      with 1 by by_evaluation.
    replace (Z.of_nat (length (@samples_of_listing PlainText.services
                                 [("2_2.txt", "bad film")])))
      with 1 by by_evaluation.
    reflexivity.
  - by_evaluation.
  - by_evaluation.
  - by_evaluation.
  - intros w. rewrite HV. unfold laplace.
    destruct (decide (w = "good")) as [->|Hg].
    { rewrite lookup_insert_eq, decide_True by set_solver.
      replace (count_word "good" _) with 1 by by_evaluation. reflexivity. }
    rewrite lookup_insert_ne by congruence.
    destruct (decide (w = "film")) as [->|Hf].
    { rewrite lookup_insert_eq, decide_True by set_solver.
      replace (count_word "film" _) with 1 by by_evaluation. reflexivity. }
    rewrite lookup_insert_ne by congruence.
    destruct (decide (w = "bad")) as [->|Hb].
    { rewrite lookup_singleton_eq, decide_True by set_solver.
      replace (count_word "bad" _) with 0 by by_evaluation. reflexivity. }
    rewrite lookup_singleton_ne by congruence.
    rewrite decide_False by set_solver. reflexivity.
  - intros w. rewrite HV. unfold laplace.
    destruct (decide (w = "good")) as [->|Hg].
    { rewrite lookup_insert_eq, decide_True by set_solver.
      replace (count_word "good" _) with 0 by by_evaluation. reflexivity. }
    rewrite lookup_insert_ne by congruence.
    destruct (decide (w = "film")) as [->|Hf].
    { rewrite lookup_insert_eq, decide_True by set_solver.
      replace (count_word "film" _) with 1 by by_evaluation. reflexivity. }
    rewrite lookup_insert_ne by congruence.
    destruct (decide (w = "bad")) as [->|Hb].
    { rewrite lookup_singleton_eq, decide_True by set_solver.
      replace (count_word "bad" _) with 1 by by_evaluation. reflexivity. }
    rewrite lookup_singleton_ne by congruence.
    rewrite decide_False by set_solver. reflexivity.
Qed.

Lemma balanced_model_init :
  @__init__ PlainText.services true false false balanced_fs
  = Ok (balanced_model,
        write_saved_params balanced_fs (params balanced_model)).
Proof.
  destruct (@init_retrain_ok PlainText.services false false balanced_fs
              _ _ eq_refl eq_refl)
    as (p & Hp & Hinit); [discriminate | discriminate | by_evaluation |].
  rewrite (trained_unique _ _ _ _ _ _ Hp balanced_model_trained) in Hinit.
  exact Hinit.
Qed.

Lemma balanced_model_tokens text :
  @tokens_of PlainText.services balanced_model text
  = @tokenize PlainText.services false false text.
Proof. reflexivity. Qed.

(** The scores of [balanced_model] on the tokens "film", "good". *)
Lemma balanced_model_film_good :
  @tokens_of PlainText.services balanced_model "film good" = ["film"; "good"]
  /\ @score_pos exact_arith balanced_model ["film"] = (ln (1 / 2) + ln (2 / 5))%R
  /\ @score_neg exact_arith balanced_model ["film"] = (ln (1 / 2) + ln (2 / 5))%R
  /\ @score_pos exact_arith balanced_model ["film"; "good"]
     = (ln (1 / 2) + ln (2 / 5) + ln (2 / 5))%R
  /\ @score_neg exact_arith balanced_model ["film"; "good"]
     = (ln (1 / 2) + ln (2 / 5) + ln (1 / 5))%R.
Proof.
  assert (("good" : string) <> "film") as Hgf by by_evaluation.
  split; [by_evaluation |].
  unfold score_pos, score_neg, accumulate.
  cbn [foldl balanced_model params pos_prior neg_prior pos_likelihood
       neg_likelihood def_pos_ll def_neg_ll].
  rewrite !(lookup_insert_ne _ "good" "film") by exact Hgf.
  rewrite !lookup_insert_eq. cbn [default].
  repeat split; reflexivity.
Qed.

(** The scores of [balanced_model] on the single token "good". *)
Lemma balanced_model_good :
  @tokens_of PlainText.services balanced_model "good" = ["good"]
  /\ @score_pos exact_arith balanced_model ["good"] = (ln (1 / 2) + ln (2 / 5))%R
  /\ @score_neg exact_arith balanced_model ["good"] = (ln (1 / 2) + ln (1 / 5))%R.
Proof.
  split; [by_evaluation |].
  unfold score_pos, score_neg, accumulate.
  cbn [foldl balanced_model params pos_prior neg_prior pos_likelihood
       neg_likelihood def_pos_ll def_neg_ll].
  rewrite !lookup_insert_eq. cbn [default].
  split; reflexivity.
Qed.

End BalancedExample.

(** * The properties of the specification *)

Import NaiveBayesClassifier.

(** C1: training gives every word of the combined vocabulary its add-one
    smoothed log-likelihood in both classes, ln((count + 1) / (n_words +
    n_vocab)), a word absent from a class counting 0 there; [n_pos_words]
    and [n_neg_words] are the token totals of the classes and [n_vocab] the
    number of distinct words.  On the corpus of [example_fs], without stop
    word filtering or lemmatization: n_vocab = 6, n_pos_words = 5,
    n_neg_words = 4, and "good" gets ln(3/11) and ln(1/10). *)
Theorem C1_laplace_likelihood :
  (forall (TS : TextServices) (sw lem : bool) (fs : FileSystem)
          (pos neg : list sample),
      get_samples (train_pos fs) = Ok pos ->
      get_samples (train_neg fs) = Ok neg ->
      pos <> [] -> neg <> [] ->
      exists p,
        NaiveBayesClassifier._train_model sw lem fs
        = Ok (p, write_saved_params fs p)
        /\ n_pos_words p = Z.of_nat (length (class_tokens sw lem pos))
        /\ n_neg_words p = Z.of_nat (length (class_tokens sw lem neg))
        /\ n_vocab p = Z.of_nat (size (vocabulary sw lem pos neg))
        /\ forall w,
            w ∈ class_tokens sw lem pos \/ w ∈ class_tokens sw lem neg ->
            pos_likelihood p !! w
            = Some (ln (IZR (count_word w (class_tokens sw lem pos) + 1)
                        / IZR (n_pos_words p + n_vocab p)))
            /\ neg_likelihood p !! w
               = Some (ln (IZR (count_word w (class_tokens sw lem neg) + 1)
                           / IZR (n_neg_words p + n_vocab p))))
  /\ exists p,
      @NaiveBayesClassifier._train_model PlainText.services false false
                                         example_fs
      = Ok (p, write_saved_params example_fs p)
      /\ n_vocab p = 6 /\ n_pos_words p = 5 /\ n_neg_words p = 4
      /\ pos_likelihood p !! "good" = Some (ln (3 / 11))
      /\ neg_likelihood p !! "good" = Some (ln (1 / 10)).
Proof.
  split.
  - intros TS sw lem fs pos neg Hp Hn Hpne Hnne.
    destruct (train_model_ok sw lem fs pos neg Hp Hn Hpne Hnne)
      as (p & Htrain & [_ _ Hpw Hnw Hv Hpl Hnl]).
    exists p. split; [exact Htrain |]. split; [exact Hpw |].
    split; [exact Hnw |]. split; [exact Hv |].
    assert (forall w, w ∈ class_tokens sw lem pos \/ w ∈ class_tokens sw lem neg
                      -> w ∈ vocabulary sw lem pos neg) as Hin.
    { intros w Hw. unfold vocabulary.
      by rewrite elem_of_list_to_set, elem_of_app. }
    intros w Hw. rewrite Hpl, Hnl, !decide_True by auto. by split.
  - destruct (@train_model_ok PlainText.services false false example_fs
                _ _ eq_refl eq_refl)
      as (p & Htrain & [_ _ Hpw Hnw Hv Hpl Hnl]); [discriminate | discriminate |].
    exists p. split; [exact Htrain |].
    assert (n_vocab p = 6) as Hv6 by (rewrite Hv; by_evaluation).
    assert (n_pos_words p = 5) as Hp5 by (rewrite Hpw; by_evaluation).
    assert (n_neg_words p = 4) as Hn4 by (rewrite Hnw; by_evaluation).
    split; [exact Hv6 |]. split; [exact Hp5 |]. split; [exact Hn4 |].
    split.
    + rewrite Hpl, decide_True by by_evaluation.
      rewrite Hp5, Hv6.
      replace (count_word "good" _) with 2 by by_evaluation. reflexivity.
    + rewrite Hnl, decide_True by by_evaluation.
      rewrite Hn4, Hv6.
      replace (count_word "good" _) with 0 by by_evaluation. reflexivity.
Qed.

Lemma C1_laplace_likelihood_witness :
  exists p,
    @NaiveBayesClassifier._train_model PlainText.services true false example_fs
    = Ok (p, write_saved_params example_fs p)
    /\ n_vocab p = Z.of_nat (size (@vocabulary PlainText.services true false
              (@samples_of_listing PlainText.services
                 [("1_10.txt", "good movie good"); ("2_8.txt", "great film")])
              (@samples_of_listing PlainText.services
                 [("3_1.txt", "bad movie"); ("4_3.txt", "terrible film")]))).
Proof.
  destruct (proj1 C1_laplace_likelihood PlainText.services true false
              example_fs _ _ eq_refl eq_refl)
    as (p & Htrain & _ & _ & Hv & _); [discriminate | discriminate |].
  exists p. split; [exact Htrain | exact Hv].
Defined.

(** C2: for a classifier built by [__init__], the default likelihoods are
    ln(1 / (n_pos_words + n_vocab)) and ln(1 / (n_neg_words + n_vocab));
    the two scores start at the priors and for each token float addition
    adds the likelihood stored for it, or the default when the dict has
    none.  On every text [classify] does one of three things: it raises the
    assertion of its check, when the scores after some token are zero or
    tied; otherwise it returns +1 when the positive score of the whole text
    is greater than the negative one, and -1 when it is not.  A returned
    label is therefore always +1 or -1. *)
Theorem C2_classify_scores :
  forall (TS : TextServices) (FA : FloatArith) (retrain sw lem : bool)
         (fs fs' : FileSystem) (s : self),
    __init__ retrain sw lem fs = Ok (s, fs') ->
    (def_pos_ll s
     = ln (1 / IZR (n_pos_words (params s) + n_vocab (params s)))
     /\ def_neg_ll s
        = ln (1 / IZR (n_neg_words (params s) + n_vocab (params s))))
    /\ (score_pos s [] = pos_prior (params s)
        /\ score_neg s [] = neg_prior (params s))
    /\ (forall ws w,
           score_pos s (ws ++ [w])
           = float_add (score_pos s ws)
                       match pos_likelihood (params s) !! w with
                       | Some l => l
                       | None => def_pos_ll s
                       end
           /\ score_neg s (ws ++ [w])
              = float_add (score_neg s ws)
                          match neg_likelihood (params s) !! w with
                          | Some l => l
                          | None => def_neg_ll s
                          end)
    /\ forall text,
        (((exists k, (0 < k <= length (tokens_of s text))%nat
                     /\ zero_or_tie
                          (score_pos s (take k (tokens_of s text)))
                          (score_neg s (take k (tokens_of s text))))
          /\ classify s text = (Raise AssertionError, s))
         \/ ((forall k, (0 < k <= length (tokens_of s text))%nat ->
                        ~ zero_or_tie
                            (score_pos s (take k (tokens_of s text)))
                            (score_neg s (take k (tokens_of s text))))
             /\ (score_pos s (tokens_of s text)
                 > score_neg s (tokens_of s text))%R
             /\ classify s text = (Ok 1, s))
         \/ ((forall k, (0 < k <= length (tokens_of s text))%nat ->
                        ~ zero_or_tie
                            (score_pos s (take k (tokens_of s text)))
                            (score_neg s (take k (tokens_of s text))))
             /\ ~ (score_pos s (tokens_of s text)
                   > score_neg s (tokens_of s text))%R
             /\ classify s text = (Ok (-1), s)))
        /\ forall label,
            (classify s text).1 = Ok label -> label = 1 \/ label = -1.
Proof.
  intros TS FA retrain sw lem fs fs' s Hinit.
  split; [exact (init_default_likelihoods retrain sw lem fs s fs' Hinit) |].
  split; [split; reflexivity |].
  split.
  { intros ws w. unfold score_pos, score_neg. rewrite !accumulate_snoc.
    split; reflexivity. }
  intros text.
  destruct (classify_spec s text) as [[Hfail Hc] | [Hpass Hc]]; rewrite Hc;
    cbn [fst].
  - split; [left; split; [exact Hfail | reflexivity] |]. intros label [=].
  - destruct (float_gt_cases (score_pos s (tokens_of s text))
                             (score_neg s (tokens_of s text)))
      as [[Hgt ->] | [Hle ->]].
    + split.
      { right. left. split; [exact Hpass |]. split; [exact Hgt | reflexivity]. }
      intros label [= <-]. by left.
    + split.
      { right. right. split; [exact Hpass |]. split; [exact Hle | reflexivity]. }
      intros label [= <-]. by right.
Qed.

Lemma C2_classify_scores_witness :
  @NaiveBayesClassifier.__init__ PlainText.services true false false
                                 balanced_fs
  = Ok (balanced_model,
        write_saved_params balanced_fs
          (NaiveBayesClassifier.params balanced_model))
  /\ NaiveBayesClassifier.def_pos_ll balanced_model
     = ln (1 / IZR (n_pos_words (NaiveBayesClassifier.params balanced_model)
                    + n_vocab (NaiveBayesClassifier.params balanced_model))).
Proof.
  split; [exact balanced_model_init |].
  exact (proj1 (proj1 (C2_classify_scores PlainText.services exact_arith
                         true false false balanced_fs _ balanced_model
                         balanced_model_init))).
Defined.

(** C3 as stated fails on [balanced_model]: on "film good" the final
    scores are non-zero and distinct, yet [classify] raises, the scores
    being tied after "film"; on the empty text the final scores are tied,
    yet [classify] returns, whatever float addition does. *)
Lemma C3_final_check_refuted :
  ~ @raises_on_final_scores PlainText.services exact_arith balanced_model
      "film good"
  /\ forall FA : FloatArith,
      ~ @raises_on_final_scores PlainText.services FA balanced_model "".
Proof.
  assert (ln (1 / 2) < 0)%R as H12 by (apply ln_neg; lra).
  assert (ln (2 / 5) < 0)%R as H25 by (apply ln_neg; lra).
  assert (ln (1 / 5) < ln (2 / 5))%R as H15 by (apply ln_increasing; lra).
  split.
  - destruct balanced_model_film_good as (Htok & Hp1 & Hn1 & Hp2 & Hn2).
    unfold raises_on_final_scores. rewrite Htok, Hp2, Hn2.
    intros [Hraise _]. 
    assert (exists e, (@classify PlainText.services exact_arith balanced_model
                         "film good").1 = Raise e) as Hex.
    { exists AssertionError. apply classify_raises_iff. exists 1%nat.
      rewrite Htok. split; [simpl; lia |]. cbn [take].
      rewrite Hp1, Hn1. right. right. reflexivity. }
    destruct (Hraise Hex) as [Hz | [Hz | Hz]]; lra.
  - intros FA. unfold raises_on_final_scores.
    assert (@tokens_of PlainText.services balanced_model "" = []) as Htok
      by by_evaluation.
    rewrite Htok. intros [_ Hraise].
    destruct Hraise as [e He].
    { right. right. reflexivity. }
    rewrite (classify_no_tokens balanced_model "" Htok) in He.
    discriminate He.
Qed.

(** C3 (as the code has it): [classify] raises exactly when, after some
    token, that is for some non-empty prefix of the token sequence, the
    accumulated positive score is 0, or the negative score is 0, or the two
    are equal; the only exception it raises is the assertion; and a run
    whose scores are non-zero and distinct after every token returns a
    label. *)
Theorem C3_check_after_every_token :
  forall (TS : TextServices) (FA : FloatArith) (s : self) (text : string),
    ((exists e, (classify s text).1 = Raise e)
     <-> exists k, (0 < k <= length (tokens_of s text))%nat
                   /\ zero_or_tie (score_pos s (take k (tokens_of s text)))
                                  (score_neg s (take k (tokens_of s text))))
    /\ (forall e, (classify s text).1 = Raise e -> e = AssertionError)
    /\ ((forall k, (0 < k <= length (tokens_of s text))%nat ->
                   ~ zero_or_tie (score_pos s (take k (tokens_of s text)))
                                 (score_neg s (take k (tokens_of s text))))
        -> exists label, (classify s text).1 = Ok label).
Proof.
  intros TS FA s text.
  destruct (classify_spec s text) as [[Hfail Hc] | [Hpass Hc]];
    rewrite Hc; cbn [fst].
  - split; [split; [intros _; exact Hfail | intros _; by exists AssertionError] |].
    split; [by intros e [= <-] |].
    intros Hpass. destruct Hfail as (k & Hk & Hz). by destruct (Hpass k Hk).
  - split.
    { split; [intros [e [=]] |].
      intros (k & Hk & Hz). by destruct (Hpass k Hk). }
    split; [intros e [=] |]. intros _. by eexists.
Qed.

Lemma C3_check_after_every_token_witness :
  exists label,
    (@NaiveBayesClassifier.classify PlainText.services exact_arith balanced_model
                                    "good").1 = Ok label.
Proof.
  destruct balanced_model_good as (Htok & Hp & Hn).
  apply (proj2 (proj2 (C3_check_after_every_token PlainText.services
                         exact_arith balanced_model "good"))).
  rewrite Htok. intros k Hk.
  assert (k = 1%nat) as -> by (simpl in Hk; lia).
  cbn [take]. rewrite Hp, Hn.
  assert (ln (1 / 2) < 0)%R as H12 by (apply ln_neg; lra).
  assert (ln (2 / 5) < 0)%R as H25 by (apply ln_neg; lra).
  assert (ln (1 / 5) < ln (2 / 5))%R as H15 by (apply ln_increasing; lra).
  intros [Hz | [Hz | Hz]]; lra.
Defined.

(** C4: when a training directory is missing, or the positive or the
    negative sample set is empty, [_train_model] raises, and so does
    [__init__] whenever it trains (retraining is asked for, or no
    parameters were saved): no parameters are produced or saved. *)
Theorem C4_training_needs_both_classes :
  forall (TS : TextServices) (sw lem : bool) (fs : FileSystem),
    train_pos fs = None \/ train_neg fs = None
    \/ get_samples (train_pos fs) = Ok []
    \/ get_samples (train_neg fs) = Ok [] ->
    exists e,
      _train_model sw lem fs = Raise e
      /\ forall retrain,
          retrain = true \/ saved_params fs = None ->
          __init__ retrain sw lem fs = Raise e.
Proof.
  intros TS sw lem fs Hbad.
  assert (exists e, _train_model sw lem fs = Raise e) as [e He].
  { destruct (train_pos fs) as [pfiles|] eqn:Ep;
      [| eexists; apply train_model_missing; left; exact Ep].
    destruct (train_neg fs) as [nfiles|] eqn:En;
      [| eexists; apply train_model_missing; right; exact En].
    eexists.
    apply (train_model_empty sw lem fs (samples_of_listing pfiles)
                             (samples_of_listing nfiles)).
    - by rewrite Ep.
    - by rewrite En.
    - destruct Hbad as [Hb | [Hb | [Hb | Hb]]]; try discriminate Hb.
      + left. simpl in Hb. congruence.
      + right. simpl in Hb. congruence. }
  exists e. split; [exact He |].
  intros retrain Hmust. by apply init_train_raises.
Qed.

Lemma C4_training_needs_both_classes_witness :
  @get_samples PlainText.services (train_pos no_positive_fs) = Ok []
  /\ exists e,
      @_train_model PlainText.services true true no_positive_fs = Raise e
      /\ @__init__ PlainText.services false true true no_positive_fs
         = Raise e.
Proof.
  assert (@get_samples PlainText.services (train_pos no_positive_fs)
          = Ok []) as Hempty by reflexivity.
  split; [exact Hempty |].
  destruct (C4_training_needs_both_classes PlainText.services true true
              no_positive_fs) as (e & Htrain & Hinit).
  - right. right. left. exact Hempty.
  - exists e. split; [exact Htrain |]. apply Hinit. right. reflexivity.
Defined.

(** C5: from the counters tp, tn, fp, fn, and when no denominator is zero,
    [evaluate] computes precision = tp/(tp+fp), recall = tp/(tp+fn),
    f_measure = 2*precision*recall/(precision+recall) and accuracy =
    (tp+tn)/(tp+fp+tn+fn); [evaluate] applies this computation to the
    counters that its loop accumulates; with tp=8, fp=2, tn=7, fn=3 the
    precision is 0.8, the recall is within 1e-3 of 0.7273 and the accuracy
    is 0.75. *)
Theorem C5_metrics :
  (forall tp tn fp fn : Z,
      tp + fp <> 0 -> tp + fn <> 0 ->
      (IZR tp / IZR (tp + fp) + IZR tp / IZR (tp + fn))%R <> 0%R ->
      tp + fp + tn + fn <> 0 ->
      exists m,
        compute_metrics tp tn fp fn = Ok m
        /\ precision m = (IZR tp / IZR (tp + fp))%R
        /\ recall m = (IZR tp / IZR (tp + fn))%R
        /\ f_measure m
           = (2 * precision m * recall m / (precision m + recall m))%R
        /\ accuracy m = (IZR (tp + tn) / IZR (tp + fp + tn + fn))%R)
  /\ (forall (TS : TextServices) (FA : FloatArith) retrain sw lem fs model
             fs1 pos_samples neg_samples model1 model2
             tp1 tn1 fp1 fn1 tp tn fp fn,
         __init__ retrain sw lem fs = Ok (model, fs1) ->
         get_samples (test_pos fs1) = Ok pos_samples ->
         evaluate_loop model pos_samples 0 0 0 0
         = (Ok (tp1, tn1, fp1, fn1), model1) ->
         get_samples (test_neg fs1) = Ok neg_samples ->
         evaluate_loop model1 neg_samples tp1 tn1 fp1 fn1
         = (Ok (tp, tn, fp, fn), model2) ->
         evaluate retrain sw lem fs
         = (compute_metrics tp tn fp fn ≫= fun metrics => Ok (metrics, fs1)))
  /\ exists m,
      compute_metrics 8 7 2 3 = Ok m
      /\ precision m = 0.8%R
      /\ (Rabs (recall m - 0.7273) < 1e-3)%R
      /\ accuracy m = 0.75%R.
Proof.
  split; [| split].
  - intros tp tn fp fn H1 H2 H3 H4.
    eexists. split; [by apply compute_metrics_ok |].
    cbn [precision recall f_measure accuracy].
    split; [reflexivity |]. split; [reflexivity |].
    split; reflexivity.
  - intros TS FA. intros. by eapply evaluate_unfold.
  - eexists. split.
    + apply compute_metrics_ok; try lia.
      apply Rgt_not_eq. apply Rplus_lt_0_compat; apply ratio_pos; lia.
    + cbn [precision recall f_measure accuracy].
      split; [| split].
      * change (IZR (8 + 2)) with 10%R. lra.
      * change (IZR (8 + 3)) with 11%R. apply Rabs_def1; lra.
      * change (IZR (8 + 7)) with 15%R. change (IZR (8 + 2 + 7 + 3)) with 20%R.
        lra.
Qed.

Lemma C5_metrics_witness :
  exists m,
    compute_metrics 8 7 2 3 = Ok m
    /\ precision m = (IZR 8 / IZR (8 + 2))%R.
Proof.
  destruct (proj1 C5_metrics 8 7 2 3) as (m & Hm & Hp & _).
  - lia.
  - lia.
  - apply Rgt_not_eq. apply Rplus_lt_0_compat; apply ratio_pos; lia.
  - lia.
  - exists m. split; [exact Hm | exact Hp].
Defined.

(** C6: the computation of the metrics raises ZeroDivisionError exactly when
    a denominator is zero (tp+fp = 0, tp+fn = 0, precision+recall = 0, or
    no sample at all), it raises nothing else, and [evaluate] then fails
    with that error instead of reporting metrics. *)
Theorem C6_zero_denominator :
  (forall tp tn fp fn : Z,
      (compute_metrics tp tn fp fn = Raise ZeroDivisionError
       <-> (tp + fp = 0 \/ tp + fn = 0
            \/ (IZR tp / IZR (tp + fp) + IZR tp / IZR (tp + fn))%R = 0%R
            \/ tp + fp + tn + fn = 0))
      /\ forall e, compute_metrics tp tn fp fn = Raise e
                   -> e = ZeroDivisionError)
  /\ (forall (TS : TextServices) (FA : FloatArith) retrain sw lem fs model
             fs1 pos_samples neg_samples model1 model2
             tp1 tn1 fp1 fn1 tp tn fp fn,
         __init__ retrain sw lem fs = Ok (model, fs1) ->
         get_samples (test_pos fs1) = Ok pos_samples ->
         evaluate_loop model pos_samples 0 0 0 0
         = (Ok (tp1, tn1, fp1, fn1), model1) ->
         get_samples (test_neg fs1) = Ok neg_samples ->
         evaluate_loop model1 neg_samples tp1 tn1 fp1 fn1
         = (Ok (tp, tn, fp, fn), model2) ->
         (tp + fp = 0 \/ tp + fn = 0
          \/ (IZR tp / IZR (tp + fp) + IZR tp / IZR (tp + fn))%R = 0%R
          \/ tp + fp + tn + fn = 0) ->
         evaluate retrain sw lem fs = Raise ZeroDivisionError).
Proof.
  split.
  - intros tp tn fp fn. split.
    + rewrite compute_metrics_raises. tauto.
    + intros e He. by apply compute_metrics_raises in He as [-> _].
  - intros TS FA retrain sw lem fs model fs1 pos_samples neg_samples model1
           model2 tp1 tn1 fp1 fn1 tp tn fp fn Hinit Hpos Hl1 Hneg Hl2 Hzero.
    rewrite (evaluate_unfold _ _ _ _ _ _ _ _ _ _ _ _ _ _ _ _ _ _
               Hinit Hpos Hl1 Hneg Hl2).
    assert (compute_metrics tp tn fp fn = Raise ZeroDivisionError) as ->
      by (apply compute_metrics_raises; by split).
    reflexivity.
Qed.

Lemma C6_zero_denominator_witness :
  @evaluate PlainText.services exact_arith true false false balanced_fs
  = Raise ZeroDivisionError.
Proof.
  apply (proj2 C6_zero_denominator PlainText.services exact_arith
           true false false balanced_fs balanced_model _ [] []
           balanced_model balanced_model
           0 0 0 0 0 0 0 0 balanced_model_init);
    try reflexivity.
  left. reflexivity.
Defined.

(** C7 as stated fails on [balanced_model]: the positive likelihoods add up
    to 1 over the vocabulary, and to 6/5 once the mass of an unseen word is
    added. *)
Lemma C7_mass_with_unseen_refuted :
  ~ mass_with_unseen_is_one (pos_likelihood (params balanced_model))
                            (def_pos_ll balanced_model).
Proof.
  unfold mass_with_unseen_is_one.
  destruct (@trained_mass PlainText.services false false _ _ _
              balanced_model_trained) as [Hmass _]; [by_evaluation |].
  rewrite Hmass. cbn [balanced_model def_pos_ll].
  rewrite exp_ln by lra. lra.
Qed.

(** C7 (as the code has it): for a model trained on two non-empty classes
    with a non-empty vocabulary, the exponentials of the likelihoods of the
    vocabulary words of a class add up to 1 exactly; with the mass of one
    unseen word, exp(default likelihood) = 1/(n_words + n_vocab), the total
    is 1 + 1/(n_words + n_vocab). *)
Theorem C7_mass_of_smoothed_distribution :
  forall (TS : TextServices) (sw lem : bool) (fs : FileSystem)
         (pos neg : list sample),
    get_samples (train_pos fs) = Ok pos ->
    get_samples (train_neg fs) = Ok neg ->
    pos <> [] -> neg <> [] -> vocabulary sw lem pos neg <> ∅ ->
    exists s fs',
      __init__ true sw lem fs = Ok (s, fs')
      /\ mass (pos_likelihood (params s)) = 1%R
      /\ mass (neg_likelihood (params s)) = 1%R
      /\ (mass (pos_likelihood (params s)) + exp (def_pos_ll s))%R
         = (1 + 1 / IZR (n_pos_words (params s) + n_vocab (params s)))%R
      /\ (mass (neg_likelihood (params s)) + exp (def_neg_ll s))%R
         = (1 + 1 / IZR (n_neg_words (params s) + n_vocab (params s)))%R.
Proof.
  intros TS sw lem fs pos neg Hp Hn Hpne Hnne HV.
  destruct (init_retrain_ok sw lem fs pos neg Hp Hn Hpne Hnne HV)
    as (p & Htrained & Hinit).
  destruct (trained_mass sw lem pos neg p Htrained HV) as [Hmp Hmn].
  assert (0 < n_vocab p).
  { rewrite (trained_n_vocab _ _ _ _ _ Htrained).
    assert (size (vocabulary sw lem pos neg) <> 0%nat)
      by (apply size_non_empty_iff; by intros ?%leibniz_equiv).
    lia. }
  assert (0 <= n_pos_words p)
    by (rewrite (trained_n_pos_words _ _ _ _ _ Htrained); lia).
  assert (0 <= n_neg_words p)
    by (rewrite (trained_n_neg_words _ _ _ _ _ Htrained); lia).
  eexists _, _. split; [exact Hinit |].
  cbn [params def_pos_ll def_neg_ll].
  rewrite Hmp, Hmn, !exp_default_likelihood by lia.
  repeat split; reflexivity.
Qed.

Lemma C7_mass_of_smoothed_distribution_witness :
  exists s fs',
    @__init__ PlainText.services true false false balanced_fs = Ok (s, fs')
    /\ mass (pos_likelihood (params s)) = 1%R.
Proof.
  destruct (C7_mass_of_smoothed_distribution PlainText.services false false
              balanced_fs _ _ eq_refl eq_refl)
    as (s & fs' & Hinit & Hmass & _);
    [discriminate | discriminate | by_evaluation |].
  exists s, fs'. split; [exact Hinit | exact Hmass].
Defined.

(** C8: training on the same files listed in another order gives the same
    outcome: the same parameters (priors, word counts, vocabulary size and
    both likelihood dicts), saved as such, or the same exception. *)
Theorem C8_training_order_independent :
  forall (TS : TextServices) (sw lem : bool) (fs fs' : FileSystem),
    same_listing (train_pos fs) (train_pos fs') ->
    same_listing (train_neg fs) (train_neg fs') ->
    match _train_model sw lem fs, _train_model sw lem fs' with
    | Ok (p, out), Ok (p', out') =>
        p = p' /\ saved_params out = Some p /\ saved_params out' = Some p'
    | Raise e, Raise e' => e = e'
    | _, _ => False
    end.
Proof.
  intros TS sw lem fs fs' Hpos Hneg.
  destruct (train_pos fs) as [pf|] eqn:Ep, (train_pos fs') as [pf'|] eqn:Ep';
    try done.
  2: { rewrite !train_model_missing by auto. reflexivity. }
  destruct (train_neg fs) as [nf|] eqn:En, (train_neg fs') as [nf'|] eqn:En';
    try done.
  2: { rewrite !train_model_missing by auto. reflexivity. }
  simpl in Hpos, Hneg.
  apply samples_of_listing_Permutation in Hpos, Hneg.
  assert (get_samples (train_pos fs) = Ok (samples_of_listing pf)) as Gp
    by (by rewrite Ep).
  assert (get_samples (train_neg fs) = Ok (samples_of_listing nf)) as Gn
    by (by rewrite En).
  assert (get_samples (train_pos fs') = Ok (samples_of_listing pf')) as Gp'
    by (by rewrite Ep').
  assert (get_samples (train_neg fs') = Ok (samples_of_listing nf')) as Gn'
    by (by rewrite En').
  set (pos := samples_of_listing pf) in *.
  set (pos' := samples_of_listing pf') in *.
  set (neg := samples_of_listing nf) in *.
  set (neg' := samples_of_listing nf') in *.
  pose proof (Permutation_nil_iff pos pos' Hpos) as Hpp.
  pose proof (Permutation_nil_iff neg neg' Hneg) as Hnn.
  destruct (decide (pos = [] \/ neg = [])) as [Hempty | Hfull].
  - assert (pos' = [] \/ neg' = []) as Hempty' by tauto.
    rewrite (train_model_empty sw lem fs pos neg Gp Gn Hempty).
    rewrite (train_model_empty sw lem fs' pos' neg' Gp' Gn' Hempty').
    repeat case_decide; tauto.
  - assert (pos <> [] /\ neg <> []) as [Hp1 Hn1] by tauto.
    assert (pos' <> [] /\ neg' <> []) as [Hp2 Hn2] by tauto.
    destruct (train_model_ok sw lem fs pos neg Gp Gn Hp1 Hn1)
      as (p & -> & Htrained).
    destruct (train_model_ok sw lem fs' pos' neg' Gp' Gn' Hp2 Hn2)
      as (p' & -> & Htrained').
    split; [| split; reflexivity].
    apply (trained_unique sw lem pos' neg'); [| exact Htrained'].
    by apply (trained_Permutation sw lem pos pos' neg neg').
Qed.

Lemma C8_training_order_independent_witness :
  same_listing (train_pos example_fs) (train_pos example_fs_reordered)
  /\ same_listing (train_neg example_fs) (train_neg example_fs_reordered)
  /\ match @_train_model PlainText.services false false example_fs,
           @_train_model PlainText.services false false example_fs_reordered
     with
     | Ok (p, out), Ok (p', out') =>
         p = p' /\ saved_params out = Some p /\ saved_params out' = Some p'
     | Raise e, Raise e' => e = e'
     | _, _ => False
     end.
Proof.
  assert (same_listing (train_pos example_fs)
                       (train_pos example_fs_reordered)) as Hpos
    by apply perm_swap.
  assert (same_listing (train_neg example_fs)
                       (train_neg example_fs_reordered)) as Hneg
    by apply perm_swap.
  split; [exact Hpos |]. split; [exact Hneg |].
  exact (C8_training_order_independent PlainText.services false false
           example_fs example_fs_reordered Hpos Hneg).
Defined.

(** C9: on a text with no token left after normalization, [classify]
    returns +1 when the positive prior is greater than the negative one and
    -1 otherwise, and raises nothing, also when the two priors are equal or
    zero. *)
Theorem C9_no_token_no_check :
  forall (TS : TextServices) (FA : FloatArith) (s : self) (text : string),
    tokens_of s text = [] ->
    ((pos_prior (params s) > neg_prior (params s))%R ->
     (classify s text).1 = Ok 1)
    /\ (~ (pos_prior (params s) > neg_prior (params s))%R ->
        (classify s text).1 = Ok (-1))
    /\ forall e, (classify s text).1 <> Raise e.
Proof.
  intros TS FA s text Hempty.
  assert (classify s text
          = (Ok (if Py.float_gt (pos_prior (params s)) (neg_prior (params s))
                 then 1 else -1), s)) as Hc.
  { unfold classify. fold (tokens_of s text). by rewrite Hempty. }
  rewrite Hc. cbn [fst].
  destruct (float_gt_cases (pos_prior (params s)) (neg_prior (params s)))
    as [[Hgt ->] | [Hle ->]].
  - split; [done |]. split; [done | discriminate].
  - split; [done |]. split; [done | discriminate].
Qed.

Lemma C9_no_token_no_check_witness :
  @tokens_of PlainText.services balanced_model "12 + 345 ?" = []
  /\ (@NaiveBayesClassifier.classify PlainText.services exact_arith balanced_model
                                     "12 + 345 ?").1 = Ok (-1).
Proof.
  assert (@tokens_of PlainText.services balanced_model "12 + 345 ?" = [])
    as Hempty by (rewrite balanced_model_tokens; by_evaluation).
  split; [exact Hempty |].
  apply (C9_no_token_no_check PlainText.services exact_arith balanced_model
           _ Hempty).
  cbn [balanced_model NaiveBayesClassifier.params pos_prior neg_prior]. lra.
Defined.

(** C10: [classify] leaves the classifier as it was, its parameters and
    both likelihood dicts included: the dicts are read with [get], which
    leaves a dict unchanged, where indexing a [defaultdict] at a missing
    key would insert the key. *)
Theorem C10_classify_frame :
  (forall (TS : TextServices) (FA : FloatArith) (s : self) (text : string),
      (classify s text).2 = s)
  /\ (forall (d : gmap string R) key dflt, (Py.dict_get d key dflt).2 = d)
  /\ (forall (d : gmap string R) key,
         d !! key = None -> (Py.defaultdict_getitem d key).2 <> d).
Proof.
  split; [intros TS FA s text; apply classify_self |].
  split; [reflexivity |].
  intros d key Hkey. unfold Py.defaultdict_getitem. rewrite Hkey. cbn [snd].
  intros Heq. rewrite <- Heq, lookup_insert_eq in Hkey. discriminate.
Qed.

Lemma C10_classify_frame_witness :
  (@NaiveBayesClassifier.classify PlainText.services exact_arith balanced_model
                                  "film good").2 = balanced_model
  /\ (Py.defaultdict_getitem ∅ "film").2 <> ∅.
Proof.
  split.
  - exact (proj1 C10_classify_frame PlainText.services exact_arith
                 balanced_model "film good").
  - exact (proj2 (proj2 C10_classify_frame) ∅ "film" (lookup_empty "film")).
Defined.

(** * Further properties of the code *)

(** ** The samples of a directory *)

Section SamplesFacts.
Context `{TextServices}.

Lemma samples_of_listing_app l1 l2 :
  samples_of_listing (l1 ++ l2)
  = samples_of_listing l1 ++ samples_of_listing l2.
Proof.
  induction l1 as [|[name contents] rest IH]; [done |].
  cbn [app samples_of_listing].
  destruct (pattern_match name) as [[review_id rating]|]; [| exact IH].
  cbn [app]. by rewrite IH.
Qed.

Lemma elem_of_samples_of_listing files (s : sample) :
  s ∈ samples_of_listing files
  <-> exists name review_id rating,
      (name, s.1.2) ∈ files
      /\ pattern_match name = Some (review_id, rating)
      /\ s.1.1 = review_id
      /\ s.2 = if 7 <=? rating then 1 else -1.
Proof.
  induction files as [|[name contents] rest IH]; cbn [samples_of_listing].
  - split; [by intros ?%elem_of_nil |].
    intros (? & ? & ? & Hin & _). by apply elem_of_nil in Hin.
  - destruct (pattern_match name) as [[review_id rating]|] eqn:Ematch.
    + rewrite elem_of_cons, IH. split.
      * intros [-> | (n & i & r & Hin & Hm & Hi & Hl)].
        -- exists name, review_id, rating. cbn.
           split; [apply elem_of_cons; by left | done].
        -- exists n, i, r. split; [apply elem_of_cons; by right | done].
      * intros (n & i & r & Hin & Hm & Hi & Hl).
        apply elem_of_cons in Hin as [Heq | Hin].
        -- left. injection Heq as -> Hc. rewrite Ematch in Hm.
           injection Hm as <- <-. destruct s as [[sid stext] slabel].
           cbn in *. by subst.
        -- right. by exists n, i, r.
    + rewrite IH. split.
      * intros (n & i & r & Hin & Hrest).
        exists n, i, r. split; [apply elem_of_cons; by right | done].
      * intros (n & i & r & Hin & Hm & Hrest).
        apply elem_of_cons in Hin as [Heq | Hin].
        -- injection Heq as -> _. by rewrite Ematch in Hm.
        -- by exists n, i, r.
Qed.

(** The samples are those of the matching files, file by file. *)
Lemma samples_of_listing_matching files :
  Forall2 sample_of_file (samples_of_listing files) (matching_files files).
Proof.
  unfold matching_files.
  induction files as [|[name contents] rest IH];
    cbn [samples_of_listing List.filter fst]; [constructor |].
  destruct (pattern_match name) as [[review_id rating]|] eqn:Ematch.
  - rewrite bool_decide_eq_true_2 by eauto.
    constructor; [| exact IH].
    split; [reflexivity |]. exists rating. cbn [fst snd].
    split; [exact Ematch | reflexivity].
  - rewrite bool_decide_eq_false_2 by (intros [? [=]]). exact IH.
Qed.

Lemma matching_files_app l1 l2 :
  matching_files (l1 ++ l2) = matching_files l1 ++ matching_files l2.
Proof. unfold matching_files. apply List.filter_app. Qed.

End SamplesFacts.

(** X1: [get_samples] fails its assertion on a path that is not a
    directory; on a directory, whose files decode as UTF-8, it yields one
    sample for each file whose name matches the pattern, in the order of
    the listing, and none for the other files: the samples are, file by
    file, those of the matching files, each with the contents of its file,
    the review id of the name, and the label 1 when the rating of the name
    is at least 7 and -1 otherwise.  There are thus as many samples as
    matching files, and a directory without any matching name yields
    nothing. *)
Theorem X1_get_samples :
  forall (TS : TextServices),
    get_samples None = Raise AssertionError
    /\ forall files,
        exists samples,
          get_samples (Some files) = Ok samples
          /\ Forall2 sample_of_file samples (matching_files files)
          /\ length samples = length (matching_files files)
          /\ (forall s : sample,
                 s ∈ samples
                 <-> exists name review_id rating,
                     (name, s.1.2) ∈ files
                     /\ pattern_match name = Some (review_id, rating)
                     /\ s.1.1 = review_id
                     /\ s.2 = if 7 <=? rating then 1 else -1)
          /\ (forall s : sample, s ∈ samples -> s.2 = 1 \/ s.2 = -1)
          /\ ((forall name contents,
                  (name, contents) ∈ files -> pattern_match name = None)
              -> samples = []).
Proof.
  intros TS. split; [reflexivity |]. intros files.
  exists (samples_of_listing files). split; [reflexivity |].
  split; [apply samples_of_listing_matching |].
  split; [exact (Forall2_length _ _ _ (samples_of_listing_matching files)) |].
  split; [apply elem_of_samples_of_listing |].
  split.
  - intros s (n & i & r & _ & _ & _ & ->)%elem_of_samples_of_listing.
    destruct (7 <=? r); auto.
  - intros Hnone.
    destruct (samples_of_listing files) as [|s rest] eqn:Es; [done |].
    assert (s ∈ samples_of_listing files) as Hs
      by (rewrite Es; apply elem_of_cons; by left).
    apply elem_of_samples_of_listing in Hs as (n & i & r & Hin & Hm & _).
    by rewrite (Hnone _ _ Hin) in Hm.
Qed.

Lemma X1_get_samples_witness :
  exists samples,
    @get_samples PlainText.services (Some [("README", "not a review")])
    = Ok samples
    /\ samples = [].
Proof.
  destruct (proj2 (X1_get_samples PlainText.services)
                  [("README", "not a review")])
    as (samples & Hget & _ & _ & _ & _ & Hnone).
  exists samples. split; [exact Hget |]. apply Hnone.
  intros name contents Hin. apply list_elem_of_singleton in Hin.
  injection Hin as -> _. reflexivity.
Defined.





(** ** Tokens *)

Lemma filter_sublist {A} (f : A -> bool) (l : list A) :
  sublist (List.filter f l) l.
Proof.
  induction l as [|x l IH]; cbn [List.filter]; [constructor |].
  destruct (f x); by constructor.
Qed.

Lemma elem_of_List_filter {A} (f : A -> bool) (l : list A) x :
  x ∈ List.filter f l <-> x ∈ l /\ f x = true.
Proof. rewrite !list_elem_of_In. apply filter_In. Qed.

Lemma count_word_filter (f : string -> bool) token l :
  f token = true -> count_word token (List.filter f l) = count_word token l.
Proof.
  intros Hf. induction l as [|t rest IH]; [reflexivity |].
  cbn [List.filter count_word].
  destruct (f t) eqn:Et; cbn [count_word].
  - by rewrite IH.
  - rewrite IH. case_decide as Heq; [| lia].
    subst t. rewrite Hf in Et. discriminate Et.
Qed.

(** X3: with stop word filtering no token that [tokenize] returns is a stop
    word, in particular none is "br", "'s" or "'ve"; without lemmatization
    every token holds a letter from a to z, the tokens are a subsequence of
    the tokenizer's words, and repetitions are kept: a word with a letter
    from a to z, not a stop word when stop words are filtered, occurs among
    the tokens as many times as among the tokenizer's words; in every
    configuration there are at most as many tokens as words. *)
Theorem X3_tokenize :
  forall (TS : TextServices),
    (forall lemmatize text token,
        token ∈ tokenize true lemmatize text ->
        (token ∉ stopwords)
        /\ token <> "br" /\ token <> "'s" /\ token <> "'ve")
    /\ (forall use_stopwords text token,
           token ∈ tokenize use_stopwords false text ->
           has_a_to_z token = true)
    /\ (forall use_stopwords text,
           sublist (tokenize use_stopwords false text)
                   (word_tokenize (str_lower (str_strip text))))
    /\ (forall use_stopwords text token,
           has_a_to_z token = true ->
           (use_stopwords = true -> (token ∉ stopwords)) ->
           count_word token (tokenize use_stopwords false text)
           = count_word token (word_tokenize (str_lower (str_strip text))))
    /\ (forall use_stopwords lemmatize text,
           (length (tokenize use_stopwords lemmatize text)
            <= length (word_tokenize (str_lower (str_strip text))))%nat).
Proof.
  intros TS. split; [| split; [| split; [| split]]].
  - intros lemmatize text token Hin. unfold tokenize in Hin.
    apply elem_of_List_filter in Hin as [_ Hstop].
    apply bool_decide_eq_true in Hstop.
    split; [exact Hstop |].
    unfold stopwords in Hstop.
    rewrite elem_of_list_to_set, elem_of_app in Hstop.
    repeat split; intros ->; apply Hstop; right;
      repeat (try (apply elem_of_cons; left; reflexivity);
              apply elem_of_cons; right).
  - intros [] text token Hin; unfold tokenize in Hin.
    + apply elem_of_List_filter in Hin as [Hin _].
      by apply elem_of_List_filter in Hin as [_ Hin].
    + by apply elem_of_List_filter in Hin as [_ Hin].
  - intros [] text; unfold tokenize.
    + etrans; apply filter_sublist.
    + apply filter_sublist.
  - intros [] text token Hletter Hstop; unfold tokenize.
    + rewrite (count_word_filter
                 (fun token => bool_decide (token ∉ stopwords)))
        by (apply bool_decide_eq_true_2; by apply Hstop).
      by apply count_word_filter.
    + by apply count_word_filter.
  - intros sw lem text. unfold tokenize.
    set (words := word_tokenize (str_lower (str_strip text))).
    assert (length (List.filter has_a_to_z words) <= length words)%nat
      by (apply sublist_length, filter_sublist).
    assert (forall l : list string,
               length (if lem then List.map wordnet_lemmatize l else l)
               = length l) as Hmap
      by (intros l; destruct lem; [apply length_map | done]).
    destruct sw.
    + etrans; [apply sublist_length, filter_sublist |]. by rewrite Hmap.
    + by rewrite Hmap.
Qed.

Lemma X3_tokenize_witness :
  ("film" : string) ∈ @tokenize PlainText.services true false "My br FILM"
  /\ ("film" : string) ∉ @stopwords PlainText.services.
Proof.
  assert (("film" : string)
            ∈ @tokenize PlainText.services true false "My br FILM") as Hin
    by by_evaluation.
  split; [exact Hin |].
  exact (proj1 (proj1 (X3_tokenize PlainText.services) false "My br FILM"
                      "film" Hin)).
Defined.

(** ** Trained parameters *)

Section TrainedFacts.
Context `{TextServices}.

(** A successful training run read backwards. *)
Lemma train_model_inv sw lem fs p fs' :
  _train_model sw lem fs = Ok (p, fs') ->
  exists pos neg,
    get_samples (train_pos fs) = Ok pos
    /\ get_samples (train_neg fs) = Ok neg
    /\ pos <> [] /\ neg <> []
    /\ trained sw lem pos neg p
    /\ fs' = write_saved_params fs p.
Proof.
  intros Htrain.
  destruct (train_pos fs) as [pf|] eqn:Ep;
    [| rewrite train_model_missing in Htrain by auto; discriminate Htrain].
  destruct (train_neg fs) as [nf|] eqn:En;
    [| rewrite train_model_missing in Htrain by auto; discriminate Htrain].
  assert (get_samples (train_pos fs) = Ok (samples_of_listing pf)) as Gp
    by (by rewrite Ep).
  assert (get_samples (train_neg fs) = Ok (samples_of_listing nf)) as Gn
    by (by rewrite En).
  exists (samples_of_listing pf), (samples_of_listing nf).
  destruct (decide (samples_of_listing pf = [] \/ samples_of_listing nf = []))
    as [Hempty | Hfull].
  { rewrite (train_model_empty sw lem fs _ _ Gp Gn Hempty) in Htrain.
    discriminate Htrain. }
  assert (samples_of_listing pf <> [] /\ samples_of_listing nf <> [])
    as [Hp Hn] by tauto.
  destruct (train_model_ok sw lem fs _ _ Gp Gn Hp Hn) as (q & Hq & Htrained).
  rewrite Hq in Htrain. injection Htrain as <- <-.
  by rewrite <- Ep, <- En.
Qed.

Lemma init_params_train retrain sw lem fs :
  retrain = true \/ saved_params fs = None ->
  _init_params retrain sw lem fs = _train_model sw lem fs.
Proof.
  unfold _init_params. intros [-> | ->]; [| done].
  by destruct (saved_params fs).
Qed.

(** [__init__] read backwards. *)
Lemma init_inv retrain sw lem fs s fs' :
  __init__ retrain sw lem fs = Ok (s, fs') ->
  _init_params retrain sw lem fs = Ok (params s, fs')
  /\ should_retrain s = retrain
  /\ should_use_stopwords s = sw
  /\ should_lemmatize s = lem
  /\ 0 < n_pos_words (params s) + n_vocab (params s)
  /\ 0 < n_neg_words (params s) + n_vocab (params s)
  /\ def_pos_ll s
     = ln (1 / IZR (n_pos_words (params s) + n_vocab (params s)))
  /\ def_neg_ll s
     = ln (1 / IZR (n_neg_words (params s) + n_vocab (params s))).
Proof.
  unfold __init__.
  destruct (_init_params retrain sw lem fs) as [[p fs0]|e]; [| done].
  rewrite bind_Ok. cbv beta iota zeta.
  unfold Py.truediv, Py.math_log.
  destruct (decide (n_pos_words p + n_vocab p = 0)) as [|Hp0];
    [by rewrite bind_Raise |]. rewrite bind_Ok.
  destruct (Rle_dec (1 / IZR (n_pos_words p + n_vocab p)) 0) as [|Hp1];
    [by rewrite bind_Raise |]. rewrite bind_Ok.
  destruct (decide (n_neg_words p + n_vocab p = 0)) as [|Hn0];
    [by rewrite bind_Raise |]. rewrite bind_Ok.
  destruct (Rle_dec (1 / IZR (n_neg_words p + n_vocab p)) 0) as [|Hn1];
    [by rewrite bind_Raise |]. rewrite bind_Ok.
  intros Heq. inversion Heq; subst. cbn [params should_retrain
    should_use_stopwords should_lemmatize def_pos_ll def_neg_ll].
  assert (forall d : Z, d <> 0 -> ~ (1 / IZR d <= 0)%R -> 0 < d) as Hpos.
  { intros d Hd Hr. destruct (Z.lt_trichotomy d 0) as [Hneg | [? | ?]];
      [| done | done].
    exfalso. apply Hr. apply IZR_lt in Hneg.
    unfold Rdiv. rewrite Rmult_1_l.
    apply Rlt_le. by apply Rinv_lt_0_compat. }
  repeat split; auto.
Qed.

Lemma elem_of_class_tokens sw lem samples w :
  w ∈ class_tokens sw lem samples
  <-> exists s : sample, s ∈ samples /\ w ∈ tokenize sw lem s.1.2.
Proof.
  unfold class_tokens.
  induction samples as [|s0 rest IH]; cbn [List.map concat].
  - split; [by intros ?%elem_of_nil |].
    intros (s & Hs & _). by apply elem_of_nil in Hs.
  - rewrite elem_of_app, IH. split.
    + intros [Hw | (s & Hs & Hw)].
      * exists s0. split; [apply elem_of_cons; by left | done].
      * exists s. split; [apply elem_of_cons; by right | done].
    + intros (s & Hs & Hw). apply elem_of_cons in Hs as [-> | Hs].
      * by left.
      * right. by exists s.
Qed.

Lemma count_word_le_length w l : count_word w l <= Z.of_nat (length l).
Proof.
  induction l as [|t rest IH]; cbn [count_word length]; [done |].
  case_decide; lia.
Qed.

Lemma trained_dom sw lem pos neg p :
  trained sw lem pos neg p ->
  dom (pos_likelihood p) = vocabulary sw lem pos neg
  /\ dom (neg_likelihood p) = vocabulary sw lem pos neg.
Proof.
  intros [_ _ _ _ _ Hpl Hnl]. split; apply set_eq; intros w;
    rewrite elem_of_dom; [rewrite Hpl | rewrite Hnl];
    case_decide; split; try done; by intros [? ?].
Qed.

End TrainedFacts.

(** ** The smoothed likelihood as a function of the count *)

Lemma ln_nonpos x : (0 < x <= 1)%R -> (ln x <= 0)%R.
Proof.
  intros [H0 [Hlt | ->]]; [| rewrite ln_1; lra].
  rewrite <- ln_1. apply Rlt_le. by apply ln_increasing.
Qed.

Lemma laplace_lt c1 c2 n v :
  0 <= c1 -> 0 <= c2 -> 0 < n + v ->
  (laplace c1 n v < laplace c2 n v)%R <-> c1 < c2.
Proof.
  intros H1 H2 Hd. unfold laplace.
  assert (0 < IZR (n + v))%R as HD by (by apply (IZR_lt 0)).
  assert (forall a b, 0 < a + 1 -> 0 < b + 1 ->
            (IZR (a + 1) / IZR (n + v) < IZR (b + 1) / IZR (n + v))%R
            <-> a < b) as Hratio.
  { intros a b _ _. split.
    - intros Hlt. apply Rmult_lt_reg_r in Hlt; [| by apply Rinv_0_lt_compat].
      apply lt_IZR in Hlt. lia.
    - intros Hlt. apply Rmult_lt_compat_r; [by apply Rinv_0_lt_compat |].
      apply IZR_lt. lia. }
  rewrite <- (Hratio c1 c2) by lia. split.
  - apply ln_lt_inv; apply ratio_pos; lia.
  - apply ln_increasing. apply ratio_pos; lia.
Qed.

Lemma laplace_nonpos c n v :
  0 <= c -> c <= n -> 1 <= v -> (laplace c n v <= 0)%R.
Proof.
  intros Hc Hn Hv. unfold laplace. apply ln_nonpos. split.
  - apply ratio_pos; lia.
  - apply Rmult_le_reg_r with (IZR (n + v));
      [apply (IZR_lt 0); lia |].
    unfold Rdiv. rewrite Rmult_assoc, Rinv_l, Rmult_1_r, Rmult_1_l;
      [apply IZR_le; lia |].
    apply not_0_IZR. lia.
Qed.

Lemma laplace_zero n v : laplace 0 n v = ln (1 / IZR (n + v)).
Proof. reflexivity. Qed.

Section TrainedTheorems.
Context `{TextServices}.

Lemma trained_vocab_pos sw lem pos neg p w :
  trained sw lem pos neg p ->
  w ∈ vocabulary sw lem pos neg -> 1 <= n_vocab p.
Proof.
  intros Ht Hw. rewrite (trained_n_vocab _ _ _ _ _ Ht).
  assert (size (vocabulary sw lem pos neg) <> 0%nat).
  { apply size_non_empty_iff. intros Hempty. set_solver. }
  lia.
Qed.

Lemma trained_pos_lookup sw lem pos neg p w l :
  trained sw lem pos neg p ->
  pos_likelihood p !! w = Some l ->
  w ∈ vocabulary sw lem pos neg
  /\ l = laplace (count_word w (class_tokens sw lem pos))
                 (n_pos_words p) (n_vocab p).
Proof.
  intros Ht Hl. rewrite (trained_pos_likelihood _ _ _ _ _ Ht) in Hl.
  case_decide; [| done]. split; [done | congruence].
Qed.

Lemma trained_neg_lookup sw lem pos neg p w l :
  trained sw lem pos neg p ->
  neg_likelihood p !! w = Some l ->
  w ∈ vocabulary sw lem pos neg
  /\ l = laplace (count_word w (class_tokens sw lem neg))
                 (n_neg_words p) (n_vocab p).
Proof.
  intros Ht Hl. rewrite (trained_neg_likelihood _ _ _ _ _ Ht) in Hl.
  case_decide; [| done]. split; [done | congruence].
Qed.

End TrainedTheorems.

(** The parameters that training on [balanced_fs] gives. *)
Lemma balanced_model_train :
  @_train_model PlainText.services false false balanced_fs
  = Ok (params balanced_model,
        write_saved_params balanced_fs (params balanced_model)).
Proof.
  destruct (@train_model_ok PlainText.services false false balanced_fs
              _ _ eq_refl eq_refl)
    as (p & Htrain & Hp); [discriminate | discriminate |].
  by rewrite <- (trained_unique _ _ _ _ _ _ Hp balanced_model_trained).
Qed.

(** X4: after a successful training run the two likelihood dicts have the
    same keys, [n_vocab] is the number of these keys, and a word is a key
    exactly when it is a token of some training document of either
    class. *)
Theorem X4_likelihood_keys :
  forall (TS : TextServices) (sw lem : bool) (fs fs' : FileSystem)
         (p : Params) (pos neg : list sample),
    _train_model sw lem fs = Ok (p, fs') ->
    get_samples (train_pos fs) = Ok pos ->
    get_samples (train_neg fs) = Ok neg ->
    dom (pos_likelihood p) = dom (neg_likelihood p)
    /\ n_vocab p = Z.of_nat (size (dom (pos_likelihood p)))
    /\ forall w,
        w ∈ dom (pos_likelihood p)
        <-> exists s : sample,
            s ∈ pos ++ neg /\ w ∈ tokenize sw lem s.1.2.
Proof.
  intros TS sw lem fs fs' p pos neg Htrain Gp Gn.
  destruct (train_model_inv sw lem fs p fs' Htrain)
    as (pos0 & neg0 & Gp0 & Gn0 & _ & _ & Ht & _).
  rewrite Gp in Gp0. rewrite Gn in Gn0.
  injection Gp0 as <-. injection Gn0 as <-.
  destruct (trained_dom sw lem pos neg p Ht) as [Hdp Hdn].
  split; [by rewrite Hdp, Hdn |].
  split; [by rewrite Hdp, (trained_n_vocab _ _ _ _ _ Ht) |].
  intros w. rewrite Hdp. unfold vocabulary.
  rewrite elem_of_list_to_set, elem_of_app, !elem_of_class_tokens. split.
  - intros [(s & Hs & Hw) | (s & Hs & Hw)]; exists s;
      (split; [rewrite elem_of_app; auto | done]).
  - intros (s & Hs & Hw). apply elem_of_app in Hs as [Hs | Hs];
      [left | right]; by exists s.
Qed.

Lemma X4_likelihood_keys_witness :
  dom (pos_likelihood (params balanced_model))
  = dom (neg_likelihood (params balanced_model)).
Proof.
  exact (proj1 (X4_likelihood_keys PlainText.services false false
                  balanced_fs _ _ _ _ balanced_model_train
                  eq_refl eq_refl)).
Defined.

(** The two priors after training. *)
Lemma trained_priors `{TextServices} sw lem pos neg p :
  trained sw lem pos neg p -> pos <> [] -> neg <> [] ->
  (exp (pos_prior p) + exp (neg_prior p) = 1)%R
  /\ (pos_prior p < 0)%R /\ (neg_prior p < 0)%R.
Proof.
  intros Ht Hp Hn.
  rewrite (trained_pos_prior _ _ _ _ _ Ht), (trained_neg_prior _ _ _ _ _ Ht).
  assert (0 < Z.of_nat (length pos)) as Ha by (destruct pos; simpl; [done | lia]).
  assert (0 < Z.of_nat (length neg)) as Hb by (destruct neg; simpl; [done | lia]).
  set (a := Z.of_nat (length pos)) in *.
  set (b := Z.of_nat (length neg)) in *.
  assert (0 < IZR a)%R as HA by (by apply (IZR_lt 0)).
  assert (0 < IZR b)%R as HB by (by apply (IZR_lt 0)).
  assert (IZR (a + b) = IZR a + IZR b)%R as Hab by apply plus_IZR.
  assert (0 < IZR a / IZR (a + b) < 1)%R as [Ha0 Ha1].
  { rewrite Hab. split; [apply Rdiv_lt_0_compat; lra |].
    apply Rmult_lt_reg_r with (IZR a + IZR b)%R; [lra |].
    unfold Rdiv. rewrite Rmult_assoc, Rinv_l by lra. lra. }
  assert (0 < IZR b / IZR (a + b) < 1)%R as [Hb0 Hb1].
  { rewrite Hab. split; [apply Rdiv_lt_0_compat; lra |].
    apply Rmult_lt_reg_r with (IZR a + IZR b)%R; [lra |].
    unfold Rdiv. rewrite Rmult_assoc, Rinv_l by lra. lra. }
  split; [| split; apply ln_neg; by split].
  rewrite !exp_ln by done. rewrite Hab. field. lra.
Qed.

(** The order of the two priors after training. *)
Lemma trained_priors_order `{TextServices} sw lem pos neg p :
  trained sw lem pos neg p -> pos <> [] -> neg <> [] ->
  ((pos_prior p < neg_prior p)%R <-> (length pos < length neg)%nat)
  /\ (pos_prior p = neg_prior p <-> length pos = length neg).
Proof.
  intros Ht Hp Hn.
  rewrite (trained_pos_prior _ _ _ _ _ Ht), (trained_neg_prior _ _ _ _ _ Ht).
  assert (0 < Z.of_nat (length pos)) as Ha by (destruct pos; simpl; [done | lia]).
  assert (0 < Z.of_nat (length neg)) as Hb by (destruct neg; simpl; [done | lia]).
  assert ((length pos < length neg)%nat
          <-> Z.of_nat (length pos) < Z.of_nat (length neg)) as -> by lia.
  assert (length pos = length neg
          <-> Z.of_nat (length pos) = Z.of_nat (length neg)) as -> by lia.
  set (a := Z.of_nat (length pos)) in *.
  set (b := Z.of_nat (length neg)) in *.
  assert (0 < IZR a)%R as HA by (by apply (IZR_lt 0)).
  assert (0 < IZR b)%R as HB by (by apply (IZR_lt 0)).
  assert (0 < IZR (a + b))%R as HAB by (apply (IZR_lt 0); lia).
  assert (0 < / IZR (a + b))%R as Hinv by (by apply Rinv_0_lt_compat).
  assert (0 < IZR a / IZR (a + b))%R as Ha0 by (by apply Rdiv_lt_0_compat).
  assert (0 < IZR b / IZR (a + b))%R as Hb0 by (by apply Rdiv_lt_0_compat).
  split; split.
  - intros Hlt. apply ln_lt_inv in Hlt; [| done | done].
    apply lt_IZR. unfold Rdiv in Hlt.
    by apply Rmult_lt_reg_r in Hlt.
  - intros Hlt. apply ln_increasing; [done |]. unfold Rdiv.
    apply Rmult_lt_compat_r; [done |]. by apply IZR_lt.
  - intros Heq. apply ln_inv in Heq; [| done | done].
    apply eq_IZR. unfold Rdiv in Heq.
    apply Rmult_eq_reg_r in Heq; [done | lra].
  - intros Heq. by rewrite Heq.
Qed.

(** X5: both priors of a successful training run are negative, and they
    are ordered as the numbers of documents of the two classes: the positive
    prior is smaller than the negative one exactly when the positive
    documents are fewer than the negative ones, and the two priors are
    equal exactly when the two classes have as many documents. *)
Theorem X5_priors :
  forall (TS : TextServices) (sw lem : bool) (fs fs' : FileSystem)
         (p : Params) (pos neg : list sample),
    _train_model sw lem fs = Ok (p, fs') ->
    get_samples (train_pos fs) = Ok pos ->
    get_samples (train_neg fs) = Ok neg ->
    (pos_prior p < 0)%R /\ (neg_prior p < 0)%R
    /\ ((pos_prior p < neg_prior p)%R <-> (length pos < length neg)%nat)
    /\ (pos_prior p = neg_prior p <-> length pos = length neg).
Proof.
  intros TS sw lem fs fs' p pos neg Htrain Gp Gn.
  destruct (train_model_inv sw lem fs p fs' Htrain)
    as (pos0 & neg0 & Gp0 & Gn0 & Hp & Hn & Ht & _).
  rewrite Gp in Gp0. rewrite Gn in Gn0.
  injection Gp0 as <-. injection Gn0 as <-.
  destruct (trained_priors sw lem pos neg p Ht Hp Hn) as (_ & Hpos & Hneg).
  split; [exact Hpos |]. split; [exact Hneg |].
  exact (trained_priors_order sw lem pos neg p Ht Hp Hn).
Qed.

Lemma X5_priors_witness :
  (pos_prior (params balanced_model) < 0)%R
  /\ pos_prior (params balanced_model) = neg_prior (params balanced_model).
Proof.
  destruct (X5_priors PlainText.services false false balanced_fs _ _ _ _
              balanced_model_train eq_refl eq_refl)
    as (Hpos & _ & _ & Heq).
  split; [exact Hpos |]. apply Heq. reflexivity.
Defined.

(** X6: within a class, the likelihood that training stores for a word
    grows strictly with the number of occurrences of the word in that
    class; every stored likelihood lies between the likelihood of an
    unseen word, ln(1 / (n_words + n_vocab)), and 0, and equals the former
    exactly when the word does not occur in the class. *)
Theorem X6_likelihood_monotone :
  forall (TS : TextServices) (sw lem : bool) (fs fs' : FileSystem)
         (p : Params) (pos neg : list sample),
    _train_model sw lem fs = Ok (p, fs') ->
    get_samples (train_pos fs) = Ok pos ->
    get_samples (train_neg fs) = Ok neg ->
    (forall w1 w2 l1 l2,
        pos_likelihood p !! w1 = Some l1 ->
        pos_likelihood p !! w2 = Some l2 ->
        (l1 < l2)%R
        <-> count_word w1 (class_tokens sw lem pos)
            < count_word w2 (class_tokens sw lem pos))
    /\ (forall w1 w2 l1 l2,
           neg_likelihood p !! w1 = Some l1 ->
           neg_likelihood p !! w2 = Some l2 ->
           (l1 < l2)%R
           <-> count_word w1 (class_tokens sw lem neg)
               < count_word w2 (class_tokens sw lem neg))
    /\ (forall w l,
           pos_likelihood p !! w = Some l ->
           (ln (1 / IZR (n_pos_words p + n_vocab p)) <= l <= 0)%R
           /\ (l = ln (1 / IZR (n_pos_words p + n_vocab p))
               <-> w ∉ class_tokens sw lem pos))
    /\ (forall w l,
           neg_likelihood p !! w = Some l ->
           (ln (1 / IZR (n_neg_words p + n_vocab p)) <= l <= 0)%R
           /\ (l = ln (1 / IZR (n_neg_words p + n_vocab p))
               <-> w ∉ class_tokens sw lem neg)).
Proof.
  intros TS sw lem fs fs' p pos neg Htrain Gp Gn.
  destruct (train_model_inv sw lem fs p fs' Htrain)
    as (pos0 & neg0 & Gp0 & Gn0 & _ & _ & Ht & _).
  rewrite Gp in Gp0. rewrite Gn in Gn0.
  injection Gp0 as <-. injection Gn0 as <-.
  pose proof (trained_n_pos_words _ _ _ _ _ Ht) as Hnp.
  pose proof (trained_n_neg_words _ _ _ _ _ Ht) as Hnn.
  assert (forall (tokens : list string) n w l,
             n = Z.of_nat (length tokens) -> 1 <= n_vocab p ->
             l = laplace (count_word w tokens) n (n_vocab p) ->
             (ln (1 / IZR (n + n_vocab p)) <= l <= 0)%R
             /\ (l = ln (1 / IZR (n + n_vocab p)) <-> w ∉ tokens))
    as Hbounds.
  { intros tokens n w l -> Hv ->.
    pose proof (count_word_nonneg w tokens) as Hc0.
    pose proof (count_word_le_length w tokens) as Hcn.
    rewrite <- laplace_zero.
    destruct (decide (0 < count_word w tokens)) as [Hc | Hc].
    - assert (laplace 0 (Z.of_nat (length tokens)) (n_vocab p)
              < laplace (count_word w tokens) (Z.of_nat (length tokens))
                        (n_vocab p))%R as Hlt
        by (apply laplace_lt; lia).
      split; [split; [lra | by apply laplace_nonpos] |].
      split; [lra |]. intros Hw. exfalso. apply Hw.
      by apply count_word_pos_elem_of.
    - assert (count_word w tokens = 0) as -> by lia.
      split; [split; [lra | apply laplace_nonpos; lia] |].
      split; [| done]. intros _ Hw. apply Hc.
      by apply count_word_pos_elem_of. }
  split; [| split; [| split]].
  - intros w1 w2 l1 l2 H1 H2.
    destruct (trained_pos_lookup _ _ _ _ _ _ _ Ht H1) as [Hv1 ->].
    destruct (trained_pos_lookup _ _ _ _ _ _ _ Ht H2) as [_ ->].
    pose proof (trained_vocab_pos _ _ _ _ _ _ Ht Hv1).
    apply laplace_lt; try apply count_word_nonneg. lia.
  - intros w1 w2 l1 l2 H1 H2.
    destruct (trained_neg_lookup _ _ _ _ _ _ _ Ht H1) as [Hv1 ->].
    destruct (trained_neg_lookup _ _ _ _ _ _ _ Ht H2) as [_ ->].
    pose proof (trained_vocab_pos _ _ _ _ _ _ Ht Hv1).
    apply laplace_lt; try apply count_word_nonneg. lia.
  - intros w l Hl.
    destruct (trained_pos_lookup _ _ _ _ _ _ _ Ht Hl) as [Hv Hlap].
    apply (Hbounds (class_tokens sw lem pos)); [done | | done].
    by apply (trained_vocab_pos _ _ _ _ _ _ Ht Hv).
  - intros w l Hl.
    destruct (trained_neg_lookup _ _ _ _ _ _ _ Ht Hl) as [Hv Hlap].
    apply (Hbounds (class_tokens sw lem neg)); [done | | done].
    by apply (trained_vocab_pos _ _ _ _ _ _ Ht Hv).
Qed.

Lemma X6_likelihood_monotone_witness :
  (ln (1 / IZR (n_pos_words (params balanced_model)
                + n_vocab (params balanced_model)))
   <= ln (2 / 5) <= 0)%R.
Proof.
  assert (pos_likelihood (params balanced_model) !! "good"
          = Some (ln (2 / 5))) as Hgood by apply lookup_insert_eq.
  exact (proj1 (proj1 (proj2 (proj2
           (X6_likelihood_monotone PlainText.services false false
              balanced_fs _ _ _ _ balanced_model_train eq_refl eq_refl)))
           "good" _ Hgood)).
Defined.

(** ** More on classification *)

Lemma balanced_model_classify_good :
  @classify PlainText.services exact_arith balanced_model "good"
  = (Ok 1, balanced_model).
Proof.
  destruct balanced_model_good as (Htok & Hp & Hn).
  assert (ln (1 / 2) < 0)%R as H12 by (apply ln_neg; lra).
  assert (ln (2 / 5) < 0)%R as H25 by (apply ln_neg; lra).
  assert (ln (1 / 5) < ln (2 / 5))%R as H15 by (apply ln_increasing; lra).
  destruct (@classify_spec PlainText.services exact_arith balanced_model "good")
    as [[(k & Hk & Hz) _] | [_ Hr]].
  - exfalso. rewrite Htok in Hk, Hz.
    assert (k = 1%nat) as -> by (simpl in Hk; lia).
    cbn [take] in Hz. rewrite Hp, Hn in Hz.
    destruct Hz as [Hz | [Hz | Hz]]; lra.
  - rewrite Hr, Htok, Hp, Hn. unfold Py.float_gt.
    destruct (Rgt_dec _ _) as [_ | Hle]; [reflexivity | lra].
Qed.

Lemma balanced_model_unknown (word : string) :
  word <> "good" -> word <> "film" -> word <> "bad" ->
  pos_likelihood (params balanced_model) !! word = None
  /\ neg_likelihood (params balanced_model) !! word = None.
Proof.
  intros Hg Hf Hb.
  cbn [balanced_model params pos_likelihood neg_likelihood].
  rewrite !lookup_insert_ne, !lookup_singleton_ne by congruence.
  split; reflexivity.
Qed.

(** X10: on a text with at least one token a returned label is strict: +1
    means that the positive score, as float addition accumulates it, is
    greater than the negative one, and -1 that it is smaller; a tie of the
    two accumulated scores is never resolved to -1. *)
Theorem X10_returned_label_is_strict :
  forall (TS : TextServices) (FA : FloatArith) (s : self) (text : string)
         (label : Z),
    tokens_of s text <> [] ->
    (classify s text).1 = Ok label ->
    (label = 1
     /\ (score_pos s (tokens_of s text) > score_neg s (tokens_of s text))%R)
    \/ (label = -1
        /\ (score_pos s (tokens_of s text)
            < score_neg s (tokens_of s text))%R).
Proof.
  intros TS FA s text label Hne Hc.
  destruct (classify_spec s text) as [[_ Hr] | [Hpass Hr]];
    rewrite Hr in Hc; cbn [fst] in Hc; [discriminate Hc |].
  assert (~ zero_or_tie (score_pos s (tokens_of s text))
                        (score_neg s (tokens_of s text))) as Hfinal.
  { specialize (Hpass (length (tokens_of s text))).
    rewrite firstn_all in Hpass. apply Hpass.
    destruct (tokens_of s text); [done | simpl; lia]. }
  destruct (float_gt_cases (score_pos s (tokens_of s text))
                           (score_neg s (tokens_of s text)))
    as [[Hgt Hb] | [Hle Hb]]; rewrite Hb in Hc; injection Hc as <-.
  - by left.
  - right. split; [done |].
    destruct (Rtotal_order (score_pos s (tokens_of s text))
                           (score_neg s (tokens_of s text)))
      as [Hlt | [Heq | Hgt]]; [done | | done].
    exfalso. apply Hfinal. right. by right.
Qed.

Lemma X10_returned_label_is_strict_witness :
  (@score_pos exact_arith balanced_model
     (@tokens_of PlainText.services balanced_model "good")
   > @score_neg exact_arith balanced_model
       (@tokens_of PlainText.services balanced_model "good"))%R.
Proof.
  assert (@tokens_of PlainText.services balanced_model "good" <> [])
    as Hne by (rewrite (proj1 balanced_model_good); discriminate).
  assert ((@classify PlainText.services exact_arith balanced_model "good").1 = Ok 1)
    as Hc by (by rewrite balanced_model_classify_good).
  destruct (X10_returned_label_is_strict PlainText.services exact_arith
              balanced_model "good" 1 Hne Hc) as [[_ Hgt] | [Hneg _]];
    [exact Hgt | discriminate Hneg].
Defined.

(** X11: when the two priors are equal and the two default likelihoods are
    equal, a text whose first token is in neither likelihood dict makes
    [classify] raise its assertion: both scores receive the same amount,
    so they are tied after that token. *)
Theorem X11_unknown_first_token_ties :
  forall (TS : TextServices) (FA : FloatArith) (s : self)
         (text word : string) (rest : list string),
    pos_prior (params s) = neg_prior (params s) ->
    def_pos_ll s = def_neg_ll s ->
    tokens_of s text = word :: rest ->
    pos_likelihood (params s) !! word = None ->
    neg_likelihood (params s) !! word = None ->
    classify s text = (Raise AssertionError, s).
Proof.
  intros TS FA s text word rest Hprior Hdef Htok Hp Hn.
  destruct (classify_spec s text) as [[_ Hr] | [Hpass _]]; [done |].
  exfalso. apply (Hpass 1%nat).
  - rewrite Htok. simpl. lia.
  - rewrite Htok. cbn [take]. unfold score_pos, score_neg, accumulate.
    cbn [foldl]. rewrite Hp, Hn. cbn [default]. right. right.
    by rewrite Hprior, Hdef.
Qed.

Lemma X11_unknown_first_token_ties_witness :
  @classify PlainText.services exact_arith balanced_model "wonderful film"
  = (Raise AssertionError, balanced_model).
Proof.
  assert (@tokens_of PlainText.services balanced_model "wonderful film"
          = ["wonderful"; "film"]) as Htok by by_evaluation.
  destruct (balanced_model_unknown "wonderful") as [Hp Hn];
    [by_evaluation | by_evaluation | by_evaluation |].
  exact (X11_unknown_first_token_ties PlainText.services exact_arith
           balanced_model "wonderful film" "wonderful" ["film"] eq_refl eq_refl
           Htok Hp Hn).
Defined.

(** ** The scores of a trained classifier *)

Section TrainedScores.
Context `{TextServices} `{FloatArith}.

(** A negative score stays negative when what is added is never positive,
    float addition keeping the sign of such sums. *)
Lemma accumulate_neg likelihood dflt words :
  (forall x y, (x < 0)%R -> (y <= 0)%R -> (float_add x y < 0)%R) ->
  (forall w, (default dflt (likelihood !! w) <= 0)%R) ->
  forall prior, (prior < 0)%R ->
                (accumulate likelihood dflt prior words < 0)%R.
Proof.
  intros Hadd Hle. unfold accumulate.
  induction words as [|w rest IH]; intros prior Hprior; cbn [foldl];
    [exact Hprior |].
  apply IH. apply Hadd; [exact Hprior | apply Hle].
Qed.

Lemma default_likelihood_nonpos d : 0 < d -> (ln (1 / IZR d) <= 0)%R.
Proof.
  intros Hd. apply ln_nonpos. split; [by apply (ratio_pos 1 d) |].
  assert (1 <= IZR d)%R by (apply (IZR_le 1); lia).
  apply Rmult_le_reg_r with (IZR d); [lra |].
  unfold Rdiv. rewrite Rmult_assoc, Rinv_l by lra. lra.
Qed.

(** What [__init__] gives when it trains. *)
Lemma init_trained retrain sw lem fs s fs' :
  __init__ retrain sw lem fs = Ok (s, fs') ->
  retrain = true \/ saved_params fs = None ->
  exists pos neg,
    get_samples (train_pos fs) = Ok pos
    /\ get_samples (train_neg fs) = Ok neg
    /\ pos <> [] /\ neg <> []
    /\ trained sw lem pos neg (params s)
    /\ fs' = write_saved_params fs (params s).
Proof.
  intros Hinit Hmust.
  destruct (init_inv retrain sw lem fs s fs' Hinit) as (Hparams & _).
  rewrite (init_params_train retrain sw lem fs Hmust) in Hparams.
  by apply train_model_inv.
Qed.

Lemma trained_increments_nonpos sw lem pos neg s :
  trained sw lem pos neg (params s) ->
  def_pos_ll s = ln (1 / IZR (n_pos_words (params s) + n_vocab (params s))) ->
  def_neg_ll s = ln (1 / IZR (n_neg_words (params s) + n_vocab (params s))) ->
  0 < n_pos_words (params s) + n_vocab (params s) ->
  0 < n_neg_words (params s) + n_vocab (params s) ->
  (forall w, (default (def_pos_ll s) (pos_likelihood (params s) !! w) <= 0)%R)
  /\ (forall w,
         (default (def_neg_ll s) (neg_likelihood (params s) !! w) <= 0)%R).
Proof.
  intros Ht Hdp Hdn Hp Hn. split; intros w.
  - destruct (pos_likelihood (params s) !! w) as [l|] eqn:El; cbn [default].
    + destruct (trained_pos_lookup _ _ _ _ _ _ _ Ht El) as [Hv ->].
      apply laplace_nonpos.
      * apply count_word_nonneg.
      * rewrite (trained_n_pos_words _ _ _ _ _ Ht).
        apply count_word_le_length.
      * by apply (trained_vocab_pos _ _ _ _ _ _ Ht Hv).
    + rewrite Hdp. by apply default_likelihood_nonpos.
  - destruct (neg_likelihood (params s) !! w) as [l|] eqn:El; cbn [default].
    + destruct (trained_neg_lookup _ _ _ _ _ _ _ Ht El) as [Hv ->].
      apply laplace_nonpos.
      * apply count_word_nonneg.
      * rewrite (trained_n_neg_words _ _ _ _ _ Ht).
        apply count_word_le_length.
      * by apply (trained_vocab_pos _ _ _ _ _ _ Ht Hv).
    + rewrite Hdn. by apply default_likelihood_nonpos.
Qed.

End TrainedScores.

(** X7: float addition gives a negative float when a float that is not
    positive is added to a negative one.  For a classifier that [__init__]
    has just trained, both scores are therefore strictly negative after any
    token sequence, so that the two zero tests of the sanity check never
    fire: [classify] raises exactly when the two scores, as float addition
    accumulates them, are equal after some token. *)
Theorem X7_trained_scores_negative :
  forall (TS : TextServices) (FA : FloatArith) (retrain sw lem : bool)
         (fs fs' : FileSystem) (s : self),
    (forall x y, (x < 0)%R -> (y <= 0)%R -> (float_add x y < 0)%R) ->
    __init__ retrain sw lem fs = Ok (s, fs') ->
    retrain = true \/ saved_params fs = None ->
    (forall words, (score_pos s words < 0)%R /\ (score_neg s words < 0)%R)
    /\ forall text,
        (exists e, (classify s text).1 = Raise e)
        <-> exists k,
            (0 < k <= length (tokens_of s text))%nat
            /\ score_pos s (take k (tokens_of s text))
               = score_neg s (take k (tokens_of s text)).
Proof.
  intros TS FA retrain sw lem fs fs' s Hadd Hinit Hmust.
  destruct (init_trained retrain sw lem fs s fs' Hinit Hmust)
    as (pos & neg & _ & _ & Hp & Hn & Ht & _).
  destruct (init_inv retrain sw lem fs s fs' Hinit)
    as (_ & _ & _ & _ & Hdp & Hdn & Hlp & Hln).
  destruct (trained_priors sw lem pos neg (params s) Ht Hp Hn)
    as (_ & Hpp & Hnp).
  destruct (trained_increments_nonpos sw lem pos neg s Ht Hlp Hln Hdp Hdn)
    as [Hip Hin].
  assert (forall words, (score_pos s words < 0)%R /\ (score_neg s words < 0)%R)
    as Hneg.
  { intros words. unfold score_pos, score_neg.
    split; apply accumulate_neg; assumption. }
  split; [exact Hneg |]. intros text.
  destruct (classify_spec s text) as [[(k & Hk & Hz) Hr] | [Hpass Hr]];
    rewrite Hr; cbn [fst].
  - split; [| intros _; by exists AssertionError].
    intros _. exists k. split; [done |].
    destruct (Hneg (take k (tokens_of s text))) as [H1 H2].
    destruct Hz as [Hz | [Hz | Hz]]; [lra | lra | done].
  - split; [intros [e [=]] |].
    intros (k & Hk & Htie). exfalso. apply (Hpass k Hk). right. by right.
Qed.

Lemma X7_trained_scores_negative_witness :
  (forall x y, (x < 0)%R -> (y <= 0)%R -> (@float_add exact_arith x y < 0)%R)
  /\ (@score_pos exact_arith balanced_model ["film"] < 0)%R
  /\ (@score_neg exact_arith balanced_model ["film"] < 0)%R.
Proof.
  assert (forall x y, (x < 0)%R -> (y <= 0)%R ->
                      (@float_add exact_arith x y < 0)%R) as Hadd
    by (intros x y Hx Hy; cbn [float_add exact_arith]; lra).
  split; [exact Hadd |].
  exact (proj1 (X7_trained_scores_negative PlainText.services exact_arith
                  true false false balanced_fs _ balanced_model Hadd
                  balanced_model_init (or_introl eq_refl)) ["film"]).
Defined.

(** ** Saved parameters *)

(** X8: after [__init__] the saved parameters are those of the classifier:
    written by the training run when there was one, and otherwise the ones
    that were loaded, the files being left as they were.  A later
    [__init__] without retraining, on any file system that holds these
    saved parameters, rebuilds the same parameters and the same default
    likelihoods without reading the corpus directories. *)
Theorem X8_saved_parameters_reload :
  forall (TS : TextServices) (retrain sw lem : bool) (fs fs' : FileSystem)
         (s : self),
    __init__ retrain sw lem fs = Ok (s, fs') ->
    (retrain = true \/ saved_params fs = None ->
     fs' = write_saved_params fs (params s))
    /\ (retrain = false -> saved_params fs <> None ->
        fs' = fs /\ saved_params fs = Some (params s))
    /\ saved_params fs' = Some (params s)
    /\ forall (sw2 lem2 : bool) (fs2 : FileSystem),
        saved_params fs2 = Some (params s) ->
        __init__ false sw2 lem2 fs2 = Ok (reloaded s sw2 lem2, fs2).
Proof.
  intros TS retrain sw lem fs fs' s Hinit.
  destruct (init_inv retrain sw lem fs s fs' Hinit)
    as (Hparams & _ & _ & _ & Hdp & Hdn & Hlp & Hln).
  assert (retrain = true \/ saved_params fs = None ->
          fs' = write_saved_params fs (params s)) as Htrained.
  { intros Hmust.
    by destruct (init_trained retrain sw lem fs s fs' Hinit Hmust)
      as (_ & _ & _ & _ & _ & _ & _ & ->). }
  assert (retrain = false -> saved_params fs <> None ->
          fs' = fs /\ saved_params fs = Some (params s)) as Hloaded.
  { intros -> Hsaved. unfold _init_params in Hparams.
    destruct (saved_params fs) as [loaded|]; [| done].
    cbn [negb] in Hparams. injection Hparams as -> ->. done. }
  split; [exact Htrained |]. split; [exact Hloaded |]. split.
  - destruct retrain.
    + rewrite Htrained by auto. reflexivity.
    + destruct (saved_params fs) as [loaded|] eqn:Es.
      * destruct Hloaded as [-> Hs]; [done | done |]. by rewrite Es.
      * rewrite Htrained by auto. reflexivity.
  - intros sw2 lem2 fs2 Hsaved. unfold __init__, _init_params.
    rewrite Hsaved. cbn [negb]. rewrite bind_Ok. cbv beta iota zeta.
    rewrite (bind_log_ratio 1 (n_pos_words (params s) + n_vocab (params s)))
      by lia.
    rewrite (bind_log_ratio 1 (n_neg_words (params s) + n_vocab (params s)))
      by lia.
    unfold reloaded. by rewrite Hlp, Hln.
Qed.

Lemma X8_saved_parameters_reload_witness :
  @__init__ PlainText.services false true true
            (write_saved_params no_positive_fs (params balanced_model))
  = Ok (reloaded balanced_model true true,
        write_saved_params no_positive_fs (params balanced_model)).
Proof.
  exact (proj2 (proj2 (proj2
           (X8_saved_parameters_reload PlainText.services true false false
              balanced_fs _ balanced_model balanced_model_init)))
           true true
           (write_saved_params no_positive_fs (params balanced_model))
           eq_refl).
Defined.

(** X9: when both classes have samples but no document has a token,
    training succeeds and saves parameters with an empty vocabulary, no
    words and empty likelihood dicts; [__init__] then raises
    ZeroDivisionError on the default likelihoods, right after that
    training run and again on every later load of the saved parameters. *)
Theorem X9_empty_vocabulary :
  forall (TS : TextServices) (sw lem : bool) (fs : FileSystem)
         (pos neg : list sample),
    get_samples (train_pos fs) = Ok pos ->
    get_samples (train_neg fs) = Ok neg ->
    pos <> [] -> neg <> [] ->
    (forall s : sample, s ∈ pos ++ neg -> tokenize sw lem s.1.2 = []) ->
    exists p,
      _train_model sw lem fs = Ok (p, write_saved_params fs p)
      /\ n_vocab p = 0 /\ n_pos_words p = 0 /\ n_neg_words p = 0
      /\ pos_likelihood p = ∅ /\ neg_likelihood p = ∅
      /\ (forall retrain,
             retrain = true \/ saved_params fs = None ->
             __init__ retrain sw lem fs = Raise ZeroDivisionError)
      /\ __init__ false sw lem (write_saved_params fs p)
         = Raise ZeroDivisionError.
Proof.
  intros TS sw lem fs pos neg Gp Gn Hp Hn Hempty.
  destruct (train_model_ok sw lem fs pos neg Gp Gn Hp Hn)
    as (p & Htrain & Ht).
  assert (forall samples : list sample,
             (forall s : sample, s ∈ samples -> tokenize sw lem s.1.2 = []) ->
             class_tokens sw lem samples = []) as Hnone.
  { intros samples Hs. unfold class_tokens.
    induction samples as [|s rest IH]; [done |].
    cbn [List.map concat]. rewrite Hs by (apply elem_of_cons; by left).
    apply IH. intros s' Hs'. apply Hs. apply elem_of_cons. by right. }
  assert (class_tokens sw lem pos = []) as HP
    by (apply Hnone; intros s Hs; apply Hempty, elem_of_app; by left).
  assert (class_tokens sw lem neg = []) as HN
    by (apply Hnone; intros s Hs; apply Hempty, elem_of_app; by right).
  assert (vocabulary sw lem pos neg = ∅) as HV
    by (unfold vocabulary; by rewrite HP, HN).
  assert (n_vocab p = 0) as Hv0
    by (by rewrite (trained_n_vocab _ _ _ _ _ Ht), HV).
  assert (n_pos_words p = 0) as Hp0
    by (by rewrite (trained_n_pos_words _ _ _ _ _ Ht), HP).
  assert (n_neg_words p = 0) as Hn0
    by (by rewrite (trained_n_neg_words _ _ _ _ _ Ht), HN).
  exists p. split; [exact Htrain |].
  split; [exact Hv0 |]. split; [exact Hp0 |]. split; [exact Hn0 |].
  split.
  { apply map_eq. intros w.
    rewrite (trained_pos_likelihood _ _ _ _ _ Ht), HV, lookup_empty.
    by rewrite decide_False by set_solver. }
  split.
  { apply map_eq. intros w.
    rewrite (trained_neg_likelihood _ _ _ _ _ Ht), HV, lookup_empty.
    by rewrite decide_False by set_solver. }
  split.
  - intros retrain Hmust. unfold __init__.
    rewrite (init_params_train retrain sw lem fs Hmust), Htrain, bind_Ok.
    cbv beta iota zeta. by rewrite Hp0, Hv0.
  - unfold __init__, _init_params. cbn [saved_params write_saved_params negb].
    rewrite bind_Ok. cbv beta iota zeta. by rewrite Hp0, Hv0.
Qed.

Lemma X9_empty_vocabulary_witness :
  @__init__ PlainText.services true false false numbers_only_fs
  = Raise ZeroDivisionError.
Proof.
  destruct (X9_empty_vocabulary PlainText.services false false
              numbers_only_fs _ _ eq_refl eq_refl)
    as (p & _ & _ & _ & _ & _ & _ & Hinit & _).
  - discriminate.
  - discriminate.
  - intros s Hs. vm_compute in Hs.
    apply elem_of_cons in Hs as [-> | Hs]; [reflexivity |].
    apply elem_of_cons in Hs as [-> | Hs]; [reflexivity |].
    by apply elem_of_nil in Hs.
  - apply Hinit. by left.
Defined.

(** ** Reloading, and the loop of evaluate *)

Section Reload.
Context `{TextServices} `{FloatArith}.

(** [__init__] when it loads saved parameters. *)
Lemma init_load sw lem fs p :
  saved_params fs = Some p ->
  0 < n_pos_words p + n_vocab p -> 0 < n_neg_words p + n_vocab p ->
  __init__ false sw lem fs
  = Ok ({| should_retrain := false;
           should_use_stopwords := sw;
           should_lemmatize := lem;
           params := p;
           def_pos_ll := ln (1 / IZR (n_pos_words p + n_vocab p));
           def_neg_ll := ln (1 / IZR (n_neg_words p + n_vocab p)) |}, fs).
Proof.
  intros Hsaved Hp Hn. unfold __init__, _init_params.
  rewrite Hsaved. cbn [negb]. rewrite bind_Ok. cbv beta iota zeta.
  rewrite (bind_log_ratio 1 (n_pos_words p + n_vocab p)) by lia.
  by rewrite (bind_log_ratio 1 (n_neg_words p + n_vocab p)) by lia.
Qed.

Lemma init_reload retrain sw lem fs s fs' sw2 lem2 fs2 :
  __init__ retrain sw lem fs = Ok (s, fs') ->
  saved_params fs2 = Some (params s) ->
  __init__ false sw2 lem2 fs2 = Ok (reloaded s sw2 lem2, fs2).
Proof.
  intros Hinit Hsaved.
  destruct (init_inv retrain sw lem fs s fs' Hinit)
    as (_ & _ & _ & _ & Hdp & Hdn & Hlp & Hln).
  rewrite (init_load sw2 lem2 fs2 (params s) Hsaved Hdp Hdn).
  unfold reloaded. by rewrite Hlp, Hln.
Qed.

Lemma init_saved retrain sw lem fs s fs' :
  __init__ retrain sw lem fs = Ok (s, fs') ->
  saved_params fs' = Some (params s)
  /\ test_pos fs' = test_pos fs /\ test_neg fs' = test_neg fs.
Proof.
  intros Hinit.
  destruct (init_inv retrain sw lem fs s fs' Hinit) as (Hparams & _).
  unfold _init_params in Hparams.
  destruct (saved_params fs) as [loaded|] eqn:Es; [destruct retrain |];
    cbn [negb] in Hparams.
  - by apply train_model_inv in Hparams as (_ & _ & _ & _ & _ & _ & _ & ->).
  - injection Hparams as -> ->. by rewrite Es.
  - by apply train_model_inv in Hparams as (_ & _ & _ & _ & _ & _ & _ & ->).
Qed.

(** The scores do not depend on [should_retrain]. *)
Lemma classify_reloaded s text :
  classify (reloaded s (should_use_stopwords s) (should_lemmatize s)) text
  = ((classify s text).1,
     reloaded s (should_use_stopwords s) (should_lemmatize s)).
Proof.
  set (r := reloaded s (should_use_stopwords s) (should_lemmatize s)).
  assert (forall words, score_pos r words = score_pos s words) as Hsp
    by reflexivity.
  assert (forall words, score_neg r words = score_neg s words) as Hsn
    by reflexivity.
  assert (tokens_of r text = tokens_of s text) as Htok by reflexivity.
  destruct (classify_spec r text) as [[(k & Hk & Hz) Hr] | [Hpass Hr]];
    destruct (classify_spec s text) as [[(k' & Hk' & Hz') Hs] | [Hpass' Hs]];
    rewrite Hr, Hs; cbn [fst].
  - reflexivity.
  - exfalso. apply (Hpass' k); [by rewrite <- Htok |].
    by rewrite <- Htok, <- Hsp, <- Hsn.
  - exfalso. apply (Hpass k'); [by rewrite Htok |].
    by rewrite Htok, Hsp, Hsn.
  - by rewrite Htok, Hsp, Hsn.
Qed.

Lemma evaluate_loop_self model samples :
  forall tp tn fp fn,
    (evaluate_loop model samples tp tn fp fn).2 = model.
Proof.
  induction samples as [|s rest IH]; intros tp tn fp fn;
    cbn [evaluate_loop]; [done |].
  pose proof (classify_self model s.1.2) as Hself.
  destruct (classify model s.1.2) as [[prediction|e] model'];
    cbn [snd] in Hself; subst model'; [| done].
  repeat case_decide; apply IH.
Qed.

Lemma evaluate_loop_reloaded s samples :
  forall tp tn fp fn,
    (evaluate_loop (reloaded s (should_use_stopwords s) (should_lemmatize s))
                   samples tp tn fp fn).1
    = (evaluate_loop s samples tp tn fp fn).1.
Proof.
  induction samples as [|x rest IH]; intros tp tn fp fn;
    cbn [evaluate_loop]; [done |].
  rewrite classify_reloaded.
  pose proof (classify_self s x.1.2) as Hself.
  destruct (classify s x.1.2) as [[prediction|e] model'];
    cbn [fst snd] in *; subst model'; [| done].
  repeat case_decide; apply IH.
Qed.

(** The counters of the loop of [evaluate]. *)
Lemma evaluate_loop_counters model samples :
  forall tp tn fp fn tp' tn' fp' fn' model',
    evaluate_loop model samples tp tn fp fn
    = (Ok (tp', tn', fp', fn'), model') ->
    tp <= tp' /\ tn <= tn' /\ fp <= fp' /\ fn <= fn'
    /\ tp' + fn' = tp + fn + count_positive samples
    /\ fp' + tn'
       = fp + tn + (Z.of_nat (length samples) - count_positive samples).
Proof.
  unfold count_positive.
  induction samples as [|s rest IH];
    intros tp tn fp fn tp' tn' fp' fn' model'; cbn [evaluate_loop].
  - intros [= <- <- <- <- _]. cbn. lia.
  - pose proof (classify_self model s.1.2) as Hself.
    destruct (classify model s.1.2) as [[prediction|e] m]; [| done].
    cbn [snd] in Hself. subst m. cbn [List.filter length].
    destruct (decide (s.2 = 1)) as [Hpos | Hneg].
    + rewrite bool_decide_eq_true_2 by done. cbn [length].
      destruct (decide (prediction = 1)); intros Hloop;
        apply IH in Hloop; lia.
    + rewrite bool_decide_eq_false_2 by done.
      destruct (decide (prediction = 1)); intros Hloop;
        apply IH in Hloop; lia.
Qed.

End Reload.

(** X12: when the loop of [evaluate] runs through a list of samples, it
    leaves the classifier as it was, no counter decreases, tp + fn grows
    by the number of samples labelled 1 and fp + tn by the number of the
    others: every sample is counted once, on the side of its label. *)
Theorem X12_evaluate_loop_counters :
  forall (TS : TextServices) (FA : FloatArith) (model model' : self)
         (samples : list sample) (tp tn fp fn tp' tn' fp' fn' : Z),
    evaluate_loop model samples tp tn fp fn
    = (Ok (tp', tn', fp', fn'), model') ->
    model' = model
    /\ tp <= tp' /\ tn <= tn' /\ fp <= fp' /\ fn <= fn'
    /\ tp' + fn' = tp + fn + count_positive samples
    /\ fp' + tn'
       = fp + tn + (Z.of_nat (length samples) - count_positive samples).
Proof.
  intros TS FA model model' samples tp tn fp fn tp' tn' fp' fn' Hloop.
  split; [| by apply (evaluate_loop_counters model samples _ _ _ _ _ _ _ _ model')].
  pose proof (evaluate_loop_self model samples tp tn fp fn) as Hself.
  by rewrite Hloop in Hself.
Qed.

(** ** The balanced example, evaluated *)







Lemma balanced_train_command :
  @command_classify PlainText.services exact_arith "good" true false false
    balanced_fs
  = Ok (1, write_saved_params balanced_fs (params balanced_model)).
Proof.
  unfold command_classify. rewrite balanced_model_init, bind_Ok.
  cbv beta iota zeta. by rewrite balanced_model_classify_good.
Qed.

Lemma balanced_model_evaluate_good :
  @evaluate_loop PlainText.services exact_arith balanced_model
                 [((7, "good", 1) : sample)] 0 0 0 0
  = (Ok (1, 0, 0, 0), balanced_model).
Proof.
  cbn [evaluate_loop fst snd]. rewrite balanced_model_classify_good.
  rewrite !decide_True by reflexivity. reflexivity.
Qed.

Lemma X12_evaluate_loop_counters_witness :
  1 + 0 = 0 + 0 + count_positive [((7, "good", 1) : sample)].
Proof.
  exact (proj1 (proj2 (proj2 (proj2 (proj2 (proj2
           (X12_evaluate_loop_counters PlainText.services exact_arith
              balanced_model balanced_model [((7, "good", 1) : sample)]
              0 0 0 0 1 0 0 0
              balanced_model_evaluate_good))))))).
Defined.

(** ** The metrics that evaluate reports *)




Section EvaluateFacts.
Context `{TextServices} `{FloatArith}.

(** A successful [evaluate] read backwards. *)
Lemma evaluate_inv retrain sw lem fs m fs' :
  evaluate retrain sw lem fs = Ok (m, fs') ->
  exists model pos_samples neg_samples tp1 tn1 fp1 fn1 tp tn fp fn,
    __init__ retrain sw lem fs = Ok (model, fs')
    /\ get_samples (test_pos fs') = Ok pos_samples
    /\ (evaluate_loop model pos_samples 0 0 0 0).1 = Ok (tp1, tn1, fp1, fn1)
    /\ get_samples (test_neg fs') = Ok neg_samples
    /\ (evaluate_loop model neg_samples tp1 tn1 fp1 fn1).1
       = Ok (tp, tn, fp, fn)
    /\ compute_metrics tp tn fp fn = Ok m.
Proof.
  unfold evaluate.
  destruct (__init__ retrain sw lem fs) as [[model fs1]|e]; [| done].
  rewrite bind_Ok. cbv beta iota zeta.
  destruct (get_samples (test_pos fs1)) as [pos_samples|e] eqn:Gp; [| done].
  rewrite bind_Ok.
  pose proof (evaluate_loop_self model pos_samples 0 0 0 0) as Hself1.
  destruct (evaluate_loop model pos_samples 0 0 0 0)
    as [[[[[tp1 tn1] fp1] fn1]|e] model1] eqn:E1; [| done].
  cbn [snd] in Hself1. subst model1.
  destruct (get_samples (test_neg fs1)) as [neg_samples|e] eqn:Gn; [| done].
  rewrite bind_Ok.
  destruct (evaluate_loop model neg_samples tp1 tn1 fp1 fn1)
    as [[[[[tp tn] fp] fn]|e] model2] eqn:E2; [| done].
  destruct (compute_metrics tp tn fp fn) as [m0|e] eqn:Em; [| done].
  rewrite bind_Ok. intros [= <- <-].
  exists model, pos_samples, neg_samples, tp1, tn1, fp1, fn1, tp, tn, fp, fn.
  rewrite E1, E2. cbn [fst]. repeat split; done.
Qed.

End EvaluateFacts.



(** X14: a command that succeeded gives the same result when it is run
    again without retraining on the files it left: [classify] returns the
    same label and [evaluate] the same metrics, from the saved
    parameters. *)
Theorem X14_commands_rerun_without_retraining :
  forall (TS : TextServices) (FA : FloatArith) (retrain sw lem : bool)
         (fs fs' : FileSystem),
    (forall text label,
        command_classify text retrain sw lem fs = Ok (label, fs') ->
        command_classify text false sw lem fs' = Ok (label, fs'))
    /\ (forall m,
           evaluate retrain sw lem fs = Ok (m, fs') ->
           evaluate false sw lem fs' = Ok (m, fs')).
Proof.
  intros TS FA retrain sw lem fs fs'.
  assert (forall s, __init__ retrain sw lem fs = Ok (s, fs') ->
            __init__ false sw lem fs'
            = Ok (reloaded s (should_use_stopwords s) (should_lemmatize s),
                  fs')) as Hreload.
  { intros s Hinit.
    destruct (init_inv retrain sw lem fs s fs' Hinit)
      as (_ & _ & -> & -> & _).
    apply (init_reload retrain sw lem fs s fs' sw lem fs' Hinit).
    by apply (init_saved retrain sw lem fs s fs' Hinit). }
  split.
  - intros text label. unfold command_classify.
    destruct (__init__ retrain sw lem fs) as [[s fs1]|e] eqn:Einit; [| done].
    rewrite bind_Ok. cbv beta iota zeta.
    destruct (classify s text) as [[l|e] s1] eqn:Ec; [| done].
    intros [= -> ->].
    rewrite (Hreload s eq_refl), bind_Ok. cbv beta iota zeta.
    by rewrite classify_reloaded, Ec.
  - intros m Heval.
    destruct (evaluate_inv retrain sw lem fs m fs' Heval)
      as (model & ps & ns & tp1 & tn1 & fp1 & fn1 & tp & tn & fp & fn
          & Hinit & Gp & Hl1 & Gn & Hl2 & Hm).
    unfold evaluate.
    rewrite (Hreload model Hinit), bind_Ok. cbv beta iota zeta.
    rewrite Gp, bind_Ok.
    set (r := reloaded model (should_use_stopwords model)
                       (should_lemmatize model)).
    pose proof (evaluate_loop_self r ps 0 0 0 0) as Hs1.
    pose proof (evaluate_loop_reloaded model ps 0 0 0 0) as Hr1.
    fold r in Hr1. rewrite Hl1 in Hr1.
    destruct (evaluate_loop r ps 0 0 0 0) as [r1 m1].
    cbn [fst snd] in Hs1, Hr1. subst r1 m1.
    rewrite Gn, bind_Ok.
    pose proof (evaluate_loop_reloaded model ns tp1 tn1 fp1 fn1) as Hr2.
    fold r in Hr2. rewrite Hl2 in Hr2.
    destruct (evaluate_loop r ns tp1 tn1 fp1 fn1) as [r2 m2].
    cbn [fst] in Hr2. subst r2.
    by rewrite Hm, bind_Ok.
Qed.

Lemma X14_commands_rerun_without_retraining_witness :
  @command_classify PlainText.services exact_arith "good" false false false
    (write_saved_params balanced_fs (params balanced_model))
  = Ok (1, write_saved_params balanced_fs (params balanced_model)).
Proof.
  exact (proj1 (X14_commands_rerun_without_retraining PlainText.services
                  exact_arith true false false balanced_fs _)
               "good" 1 balanced_train_command).
Defined.


